(** * MockServer MCP client: the HTTP client and its error taxonomy

    A shallow embedding of [src/mockserver-client.ts] (class
    [MockServerClient]), [src/types/errors.ts] and [src/types/mockserver.ts].

    - JavaScript values are the inductive [JsValue]; objects keep their
      properties in insertion order (the order [JSON.stringify] writes them).
    - [async] methods are computations in the monad [Async]: they thread the
      list of [fetch] calls issued so far and finish either [Resolved] or
      [Rejected] with the thrown value.
    - The platform is a parameter: the remote side ([net]) and the built-ins
      [JSON.parse] and [JSON.stringify]. *)

From Stdlib Require Import ZArith List Bool Ascii String Lia.
Import ListNotations.

Open Scope string_scope.
Open Scope Z_scope.

(* ================================================================= *)
(** ** JavaScript strings and numbers *)

Module Js.

(** [s.includes(needle)]. *)
Fixpoint includes (needle s : string) : bool :=
  prefix needle s ||
  match s with
  | EmptyString => false
  | String _ rest => includes needle rest
  end.

(** Drops the first [n] characters. *)
Fixpoint skip (n : nat) (s : string) : string :=
  match n, s with
  | O, _ => s
  | S _, EmptyString => EmptyString
  | S n', String _ rest => skip n' rest
  end.

(** [s.replace(pat, rep)] with a string pattern: only the first occurrence
    is replaced.  ([rep] is taken literally; the client only ever passes the
    empty replacement.) *)
Fixpoint replace (pat rep s : string) : string :=
  match s with
  | EmptyString => if prefix pat EmptyString then rep else EmptyString
  | String c rest =>
      if prefix pat s then rep ++ skip (String.length pat) s
      else String c (replace pat rep rest)
  end.

(** [s.split(sep)] for a one-character separator: never the empty list. *)
Fixpoint split (sep : ascii) (s : string) : list string :=
  match s with
  | EmptyString => [EmptyString]
  | String c rest =>
      if Ascii.eqb c sep then EmptyString :: split sep rest
      else match split sep rest with
           | [] => [String c EmptyString]
           | piece :: more => String c piece :: more
           end
  end.

Definition is_digit (c : ascii) : bool :=
  let n := Z.of_nat (nat_of_ascii c) in (48 <=? n) && (n <=? 57).

Definition digit_value (c : ascii) : Z := Z.of_nat (nat_of_ascii c) - 48.

Definition digit_char (d : Z) : ascii := ascii_of_nat (Z.to_nat (48 + d)).

(** The white space [parseInt] skips (the one-byte characters of
    StrWhiteSpaceChar: TAB, LF, VT, FF, CR, SP). *)
Definition is_space (c : ascii) : bool :=
  let n := Z.of_nat (nat_of_ascii c) in
  ((9 <=? n) && (n <=? 13)) || (n =? 32).

Fixpoint trim_start (s : string) : string :=
  match s with
  | String c rest => if is_space c then trim_start rest else s
  | EmptyString => EmptyString
  end.

(** Reads the longest run of decimal digits, most significant first. *)
Fixpoint read_digits (acc : Z) (s : string) : Z :=
  match s with
  | String c rest =>
      if is_digit c then read_digits (10 * acc + digit_value c) rest else acc
  | EmptyString => acc
  end.

Definition starts_with_digit (s : string) : bool :=
  match s with
  | String c _ => is_digit c
  | EmptyString => false
  end.

(** A JavaScript number that is an integer, or [NaN]. *)
Inductive number : Type :=
  | Num (z : Z)
  | NaN.

(** [parseInt(s, 10)]; [None] is the argument [undefined], which is read as
    the text "undefined" and so gives [NaN]. *)
Definition parseInt (arg : option string) : number :=
  match arg with
  | None => NaN
  | Some s =>
      let t := trim_start s in
      let '(negative, t) :=
        match t with
        | String "-" rest => (true, rest)
        | String "+" rest => (false, rest)
        | _ => (false, t)
        end in
      if starts_with_digit t
      then Num (if negative then - read_digits 0 t else read_digits 0 t)
      else NaN
  end.

(** Decimal digits of a non-negative integer, written in front of [acc]. *)
Fixpoint decimal_digits (fuel : nat) (n : Z) (acc : string) : string :=
  match fuel with
  | O => acc
  | S fuel' =>
      let acc' := String (digit_char (n mod 10)) acc in
      if n / 10 =? 0 then acc' else decimal_digits fuel' (n / 10) acc'
  end.

Definition digits_fuel (n : Z) : nat := S (Z.to_nat (Z.log2 n)).

(** Number-to-string conversion of an integer, as a template literal
    [`${n}`] does it (plain decimal notation, which JavaScript uses for
    integers below 10^21 in magnitude). *)
Definition Number_toString (n : Z) : string :=
  if n <? 0 then String "-" (decimal_digits (digits_fuel (- n)) (- n) EmptyString)
  else decimal_digits (digits_fuel n) n EmptyString.

Definition hex_digit (d : Z) : ascii :=
  if d <? 10 then ascii_of_nat (Z.to_nat (48 + d))
  else ascii_of_nat (Z.to_nat (55 + d)).

(** The bytes the urlencoded serializer leaves alone: ASCII letters and
    digits, and the four characters asterisk, hyphen, full stop and
    underscore. *)
Definition urlencoded_safe (c : ascii) : bool :=
  let n := Z.of_nat (nat_of_ascii c) in
  ((48 <=? n) && (n <=? 57)) || ((65 <=? n) && (n <=? 90)) ||
  ((97 <=? n) && (n <=? 122)) ||
  (n =? 42) || (n =? 45) || (n =? 46) || (n =? 95).

Fixpoint urlencode (s : string) : string :=
  match s with
  | EmptyString => EmptyString
  | String c rest =>
      let n := Z.of_nat (nat_of_ascii c) in
      if urlencoded_safe c then String c (urlencode rest)
      else if n =? 32 then String "+" (urlencode rest)
      else String "%" (String (hex_digit (n / 16))
                         (String (hex_digit (n mod 16)) (urlencode rest)))
  end.

(** [new URLSearchParams(record).toString()]. *)
Fixpoint URLSearchParams_toString (params : list (string * string)) : string :=
  match params with
  | [] => EmptyString
  | [(k, v)] => urlencode k ++ "=" ++ urlencode v
  | (k, v) :: more =>
      urlencode k ++ "=" ++ urlencode v ++ "&" ++ URLSearchParams_toString more
  end.

End Js.

(* ================================================================= *)
(** ** JavaScript values *)

(** A JavaScript value as [JSON.parse] produces it and [JSON.stringify]
    consumes it.  [JObj] lists the object's own properties in insertion
    order, each key once.  Numbers are integers here: the client passes them
    along and never computes with them. *)
#[warnings="-register-all"] Inductive JsValue : Type :=
  | JNull
  | JBool (b : bool)
  | JNum (n : Z)
  | JStr (s : string)
  | JArr (items : list JsValue)
  | JObj (props : list (string * JsValue)).

(** Own-property lookup in a property list. *)
Fixpoint get_prop (key : string) (props : list (string * JsValue)) : option JsValue :=
  match props with
  | [] => None
  | (k, v) :: more => if String.eqb k key then Some v else get_prop key more
  end.

(** [Array.isArray(v)], together with the elements when it holds. *)
Definition as_array (v : JsValue) : option (list JsValue) :=
  match v with
  | JArr items => Some items
  | _ => None
  end.

(** [a ?? b]: [b] only when [a] is [undefined]. *)
Definition nullish {A : Type} (a : option A) (b : A) : A :=
  match a with
  | Some x => x
  | None => b
  end.

(** [o?.field]: [undefined] when [o] is. *)
Definition chain {A B : Type} (o : option A) (field : A -> option B) : option B :=
  match o with
  | Some a => field a
  | None => None
  end.

(** A property that is written only when its value is defined. *)
Definition prop {A : Type} (key : string) (enc : A -> JsValue) (v : option A)
  : list (string * JsValue) :=
  match v with
  | Some a => [(key, enc a)]
  | None => []
  end.

(* ================================================================= *)
(** ** [src/types/errors.ts] *)

Inductive ErrorCode : Type :=
  | CONNECTION_FAILED
  | CONNECTION_TIMEOUT
  | INVALID_PARAMETERS
  | MISSING_REQUIRED_FIELD
  | MOCKSERVER_ERROR
  | VERIFICATION_FAILED
  | EXPECTATION_NOT_FOUND
  | UNKNOWN_ERROR.

Definition ErrorCode_eqb (a b : ErrorCode) : bool :=
  match a, b with
  | CONNECTION_FAILED, CONNECTION_FAILED
  | CONNECTION_TIMEOUT, CONNECTION_TIMEOUT
  | INVALID_PARAMETERS, INVALID_PARAMETERS
  | MISSING_REQUIRED_FIELD, MISSING_REQUIRED_FIELD
  | MOCKSERVER_ERROR, MOCKSERVER_ERROR
  | VERIFICATION_FAILED, VERIFICATION_FAILED
  | EXPECTATION_NOT_FOUND, EXPECTATION_NOT_FOUND
  | UNKNOWN_ERROR, UNKNOWN_ERROR => true
  | _, _ => false
  end.

(** [class ToolError extends Error]: code, message and optional details. *)
Record ToolError : Type := mkToolError {
  code : ErrorCode;
  message : string;
  details : option (list (string * JsValue))
}.

(** What a [throw] or a rejected promise carries. *)
Inductive Thrown : Type :=
  | ThrowTool (e : ToolError)              (* an instance of ToolError *)
  | ThrowError (name msg : string)         (* any other instance of Error *)
  | ThrowValue (shown : string).           (* not an Error; [String(v)] *)

(* ================================================================= *)
(** ** [src/types/mockserver.ts] *)

Inductive BodyMatcherType : Type := STRING | JSON | REGEX | XPATH | JSON_PATH.
Inductive MatchType : Type := STRICT | ONLY_MATCHING_FIELDS.

Record BodyMatcher : Type := {
  bm_type : BodyMatcherType;
  bm_value : string;
  bm_matchType : option MatchType
}.

(** [Record<string, string[]>]. *)
Definition MultiMap : Type := list (string * list string).

Record RequestMatcher : Type := {
  rm_method : option string;
  rm_path : option string;
  rm_pathParameters : option MultiMap;
  rm_queryStringParameters : option MultiMap;
  rm_headers : option MultiMap;
  rm_body : option BodyMatcher
}.

Inductive DelayUnit : Type := DELAY_MILLISECONDS | DELAY_SECONDS.

Record ResponseDelay : Type := {
  rd_timeUnit : DelayUnit;
  rd_value : Z
}.

Record HttpResponse : Type := {
  hr_statusCode : option Z;
  hr_headers : option MultiMap;
  hr_body : option JsValue;               (* string | object *)
  hr_delay : option ResponseDelay
}.

Record ExpectationTimes : Type := {
  et_remainingTimes : Z;
  et_unlimited : bool
}.

Inductive TtlUnit : Type := TTL_MILLISECONDS | TTL_SECONDS | TTL_MINUTES.

Record TimeToLive : Type := {
  ttl_timeUnit : TtlUnit;
  ttl_timeToLive : Z
}.

Record Expectation : Type := {
  ex_id : option string;
  ex_httpRequest : RequestMatcher;
  ex_httpResponse : option HttpResponse;
  ex_times : option ExpectationTimes;
  ex_timeToLive : option TimeToLive
}.

Record Times : Type := {
  atLeast : option Z;
  atMost : option Z;
  exactly : option Z
}.

Record VerificationResult : Type := {
  success : bool;
  matchedCount : Z;
  vr_message : option string
}.

(** A recorded request is whatever element the remote side put in the
    array: the client returns it untouched. *)
Definition RecordedRequest : Type := JsValue.

Record ServerStatus : Type := {
  host : string;
  port : Js.number;
  reachable : bool;
  version : option JsValue
}.

(** *** The objects behind the interfaces

    The typed values above are plain objects at run time; these functions
    give the object each stands for, properties in declaration order and
    only the defined ones. *)

Definition BodyMatcherType_js (t : BodyMatcherType) : JsValue :=
  JStr match t with
       | STRING => "STRING" | JSON => "JSON" | REGEX => "REGEX"
       | XPATH => "XPATH" | JSON_PATH => "JSON_PATH"
       end.

Definition MatchType_js (t : MatchType) : JsValue :=
  JStr match t with
       | STRICT => "STRICT" | ONLY_MATCHING_FIELDS => "ONLY_MATCHING_FIELDS"
       end.

Definition BodyMatcher_js (b : BodyMatcher) : JsValue :=
  JObj ([("type", BodyMatcherType_js (bm_type b)); ("value", JStr (bm_value b))]
        ++ prop "matchType" MatchType_js (bm_matchType b))%list.

Definition MultiMap_js (m : MultiMap) : JsValue :=
  JObj (map (fun kv => (fst kv, JArr (map JStr (snd kv)))) m).

Definition RequestMatcher_js (r : RequestMatcher) : JsValue :=
  JObj (prop "method" JStr (rm_method r)
        ++ prop "path" JStr (rm_path r)
        ++ prop "pathParameters" MultiMap_js (rm_pathParameters r)
        ++ prop "queryStringParameters" MultiMap_js (rm_queryStringParameters r)
        ++ prop "headers" MultiMap_js (rm_headers r)
        ++ prop "body" BodyMatcher_js (rm_body r))%list.

Definition ResponseDelay_js (d : ResponseDelay) : JsValue :=
  JObj [("timeUnit", JStr match rd_timeUnit d with
                          | DELAY_MILLISECONDS => "MILLISECONDS"
                          | DELAY_SECONDS => "SECONDS"
                          end);
        ("value", JNum (rd_value d))].

Definition HttpResponse_js (r : HttpResponse) : JsValue :=
  JObj (prop "statusCode" JNum (hr_statusCode r)
        ++ prop "headers" MultiMap_js (hr_headers r)
        ++ prop "body" (fun v => v) (hr_body r)
        ++ prop "delay" ResponseDelay_js (hr_delay r))%list.

Definition ExpectationTimes_js (t : ExpectationTimes) : JsValue :=
  JObj [("remainingTimes", JNum (et_remainingTimes t));
        ("unlimited", JBool (et_unlimited t))].

Definition TimeToLive_js (t : TimeToLive) : JsValue :=
  JObj [("timeUnit", JStr match ttl_timeUnit t with
                          | TTL_MILLISECONDS => "MILLISECONDS"
                          | TTL_SECONDS => "SECONDS"
                          | TTL_MINUTES => "MINUTES"
                          end);
        ("timeToLive", JNum (ttl_timeToLive t))].

Definition Expectation_js (e : Expectation) : JsValue :=
  JObj (prop "id" JStr (ex_id e)
        ++ [("httpRequest", RequestMatcher_js (ex_httpRequest e))]
        ++ prop "httpResponse" HttpResponse_js (ex_httpResponse e)
        ++ prop "times" ExpectationTimes_js (ex_times e)
        ++ prop "timeToLive" TimeToLive_js (ex_timeToLive e))%list.

Definition Times_js (t : Times) : JsValue :=
  JObj (prop "atLeast" JNum (atLeast t)
        ++ prop "atMost" JNum (atMost t)
        ++ prop "exactly" JNum (exactly t))%list.

(* ================================================================= *)
(** ** The transport and asynchronous computations *)

(** The second argument of [fetch].  (The abort signal is not a field: a
    call abandoned by the timer shows as a rejection named AbortError.) *)
Record RequestInit : Type := {
  init_method : string;
  init_headers : list (string * string);
  init_body : string
}.

Record FetchCall : Type := {
  call_url : string;
  call_init : RequestInit
}.

(** Reading a response body with [response.text()]. *)
Inductive BodyRead : Type :=
  | TextOk (text : string)
  | TextFails (e : Thrown).

Record Response : Type := {
  status : Z;
  body : BodyRead
}.

(** [response.ok]. *)
Definition ok (r : Response) : bool := (200 <=? status r) && (status r <=? 299).

(** How one [fetch] ends. *)
Inductive FetchOutcome : Type :=
  | FetchRejects (e : Thrown)
  | FetchResponds (r : Response).

(** The remote side and the network: what a call gets, given the calls made
    before it. *)
Definition Network : Type := list FetchCall -> FetchCall -> FetchOutcome.

Inductive Completion (A : Type) : Type :=
  | Resolved (a : A)
  | Rejected (e : Thrown).
Arguments Resolved {A} a.
Arguments Rejected {A} e.

(** An [async] computation: from the calls issued so far to a completion
    and the calls issued by the end. *)
Definition Async (A : Type) : Type :=
  list FetchCall -> Completion A * list FetchCall.

Definition ret {A : Type} (a : A) : Async A :=
  fun log => (Resolved a, log).

Definition throw {A : Type} (e : Thrown) : Async A :=
  fun log => (Rejected e, log).

Definition bind {A B : Type} (m : Async A) (k : A -> Async B) : Async B :=
  fun log =>
    match m log with
    | (Resolved a, log') => k a log'
    | (Rejected e, log') => (Rejected e, log')
    end.

(** [try { m } catch (error) { handler }]. *)
Definition try_catch {A : Type} (m : Async A) (handler : Thrown -> Async A) : Async A :=
  fun log =>
    match m log with
    | (Resolved a, log') => (Resolved a, log')
    | (Rejected e, log') => handler e log'
    end.

Notation "x <- m ;; k" := (bind m (fun x => k))
  (at level 61, m at next level, right associativity).

(** [response.text()]. *)
Definition text (r : Response) : Async string :=
  match body r with
  | TextOk t => ret t
  | TextFails e => throw e
  end.

(* ================================================================= *)
(** ** [src/mockserver-client.ts] *)

Record MockServerClientConfig : Type := {
  cfg_host : string;
  cfg_port : Z;
  cfg_timeout : option Z
}.

Record MockServerClient : Type := {
  baseUrl : string;
  timeout : Z
}.

(** [constructor(config)]. *)
Definition constructor (config : MockServerClientConfig) : MockServerClient :=
  {| baseUrl := "http://" ++ cfg_host config ++ ":" ++ Js.Number_toString (cfg_port config);
     timeout := nullish (cfg_timeout config) 5000 |}.

(** The first two lines of [getStatus]: host and port read back from the
    base URL. *)
Definition status_host_port (this : MockServerClient) : string * Js.number :=
  let '(host, portStr) :=
    match Js.split ":" (Js.replace "http://" "" (baseUrl this)) with
    | [] => (EmptyString, None)        (* [split] never gives the empty array *)
    | [h] => (h, None)
    | h :: p :: _ => (h, Some p)
    end in
  (host, Js.parseInt portStr).

(** The signatures of a connection failure looked for in an error message. *)
Definition connection_signature (msg : string) : bool :=
  Js.includes "ECONNREFUSED" msg ||
  Js.includes "fetch failed" msg ||
  Js.includes "network" msg.

Section Client.

(** The platform the client runs on. *)
Variable net : Network.
Variable JSON_parse : string -> option JsValue.   (* [None]: SyntaxError *)
Variable JSON_stringify : JsValue -> string.

(** [fetch(url, init)]: the call is recorded and answered by the network. *)
Definition fetch (url : string) (init : RequestInit) : Async Response :=
  fun log =>
    let call := {| call_url := url; call_init := init |} in
    (match net log call with
     | FetchRejects e => Rejected e
     | FetchResponds r => Resolved r
     end, (log ++ [call])%list).

(** The URL and options [request] hands to [fetch]. *)
Definition request_call (this : MockServerClient) (path method : string)
    (payload : JsValue) (queryParams : option (list (string * string))) : FetchCall :=
  let url := baseUrl this ++ path in
  let url :=
    match queryParams with
    | Some params => url ++ "?" ++ Js.URLSearchParams_toString params
    | None => url
    end in
  {| call_url := url;
     call_init := {| init_method := method;
                     init_headers := [("Content-Type", "application/json")];
                     init_body := JSON_stringify payload |} |}.

(** The [catch] block of [request]. *)
Definition classify (this : MockServerClient) (error : Thrown) : Thrown :=
  match error with
  | ThrowTool _ => error
  | ThrowError name msg =>
      if String.eqb name "AbortError" then
        ThrowTool (mkToolError CONNECTION_TIMEOUT
          ("Connection to MockServer timed out after "
             ++ Js.Number_toString (timeout this) ++ "ms")
          (Some [("host", JStr (baseUrl this))]))
      else if connection_signature msg then
        ThrowTool (mkToolError CONNECTION_FAILED
          ("Cannot connect to MockServer at " ++ baseUrl this)
          (Some [("originalError", JStr msg)]))
      else
        ThrowTool (mkToolError UNKNOWN_ERROR ("Unexpected error: " ++ msg) None)
  | ThrowValue shown =>
      ThrowTool (mkToolError UNKNOWN_ERROR ("Unexpected error: " ++ shown) None)
  end.

(** [private async request(path, method, body, queryParams?)]. *)
Definition request (this : MockServerClient) (path method : string)
    (payload : JsValue) (queryParams : option (list (string * string))) : Async JsValue :=
  let call := request_call this path method payload queryParams in
  try_catch
    (response <- fetch (call_url call) (call_init call) ;;
     if negb (ok response) then
       errorText <- try_catch (text response) (fun _ => ret "Unknown error") ;;
       if status response =? 406 then
         throw (ThrowTool (mkToolError VERIFICATION_FAILED
                  ("Verification failed: " ++ errorText)
                  (Some [("statusCode", JNum (status response))])))
       else
         throw (ThrowTool (mkToolError MOCKSERVER_ERROR
                  ("MockServer error: " ++ errorText)
                  (Some [("statusCode", JNum (status response))])))
     else
       t <- text response ;;
       if String.eqb t "" then ret (JObj [])
       else match JSON_parse t with
            | Some v => ret v
            | None => ret (JStr t)
            end)
    (fun error => throw (classify this error)).

(** [async createExpectation(expectation)]. *)
Definition createExpectation (this : MockServerClient) (expectation : Expectation)
  : Async unit :=
  _ <- request this "/mockserver/expectation" "PUT" (Expectation_js expectation) None ;;
  ret tt.

(** The payload [verify] builds. *)
Definition verify_body (req : RequestMatcher) (times : option Times) : JsValue :=
  JObj ([("httpRequest", RequestMatcher_js req)] ++ prop "times" Times_js times)%list.

(** [async verify(request, times?)]. *)
Definition verify (this : MockServerClient) (req : RequestMatcher) (times : option Times)
  : Async VerificationResult :=
  try_catch
    (_ <- request this "/mockserver/verify" "PUT" (verify_body req times) None ;;
     ret {| success := true;
            matchedCount :=
              nullish (chain times exactly)
                (nullish (chain times atLeast) 1);
            vr_message := None |})
    (fun error =>
       match error with
       | ThrowTool e =>
           if ErrorCode_eqb (code e) VERIFICATION_FAILED then
             ret {| success := false; matchedCount := 0;
                    vr_message := Some (message e) |}
           else throw error
       | _ => throw error
       end).

(** The payload of [clear] and [retrieveRecordedRequests]. *)
Definition matcher_body (req : option RequestMatcher) : JsValue :=
  match req with
  | Some r => JObj [("httpRequest", RequestMatcher_js r)]
  | None => JObj []
  end.

(** [async clear(request?)]. *)
Definition clear (this : MockServerClient) (req : option RequestMatcher) : Async unit :=
  _ <- request this "/mockserver/clear" "PUT" (matcher_body req) None ;;
  ret tt.

(** [async reset()]. *)
Definition reset (this : MockServerClient) : Async unit :=
  _ <- request this "/mockserver/reset" "PUT" (JObj []) None ;;
  ret tt.

(** [async retrieveRecordedRequests(request?)]. *)
Definition retrieveRecordedRequests (this : MockServerClient) (req : option RequestMatcher)
  : Async (list RecordedRequest) :=
  response <- request this "/mockserver/retrieve" "PUT" (matcher_body req)
                (Some [("type", "REQUESTS")]) ;;
  match as_array response with
  | Some items => ret items
  | None => ret []
  end.

(** [response?.version]: only an object has the property. *)
Definition version_of (response : JsValue) : option JsValue :=
  match response with
  | JObj props => get_prop "version" props
  | _ => None
  end.

(** [async getStatus()]. *)
Definition getStatus (this : MockServerClient) : Async ServerStatus :=
  let '(h, p) := status_host_port this in
  try_catch
    (response <- request this "/mockserver/status" "PUT" (JObj []) None ;;
     ret {| host := h; port := p; reachable := true;
            version := version_of response |})
    (fun error =>
       match error with
       | ThrowTool e =>
           if ErrorCode_eqb (code e) CONNECTION_FAILED
              || ErrorCode_eqb (code e) CONNECTION_TIMEOUT
           then ret {| host := h; port := p; reachable := false; version := None |}
           else throw error
       | _ => throw error
       end).

End Client.

(* ================================================================= *)
(** ** A sample platform

    Closed instances of the results below run on these: a serializer for
    values whose strings need no escaping beyond quotes and backslashes, a
    parser that recognises the serializations of a few values, and networks
    that give every call the same outcome. *)

Definition dquote : string := String "034"%char EmptyString.

Fixpoint escape (s : string) : string :=
  match s with
  | EmptyString => EmptyString
  | String c rest =>
      if Ascii.eqb c "034"%char || Ascii.eqb c "092"%char
      then String "092"%char (String c (escape rest))
      else String c (escape rest)
  end.

Definition quote (s : string) : string := dquote ++ escape s ++ dquote.

Fixpoint sample_stringify (v : JsValue) : string :=
  match v with
  | JNull => "null"
  | JBool b => if b then "true" else "false"
  | JNum n => Js.Number_toString n
  | JStr s => quote s
  | JArr items =>
      "[" ++ (fix elements (l : list JsValue) : string :=
                match l with
                | [] => EmptyString
                | x :: more =>
                    sample_stringify x ++
                    match more with
                    | [] => EmptyString
                    | _ => "," ++ elements more
                    end
                end) items ++ "]"
  | JObj props =>
      "{" ++ (fix members (l : list (string * JsValue)) : string :=
                match l with
                | [] => EmptyString
                | (k, x) :: more =>
                    quote k ++ ":" ++ sample_stringify x ++
                    match more with
                    | [] => EmptyString
                    | _ => "," ++ members more
                    end
                end) props ++ "}"
  end.

Definition sample_recorded : list JsValue :=
  [JObj [("method", JStr "GET"); ("path", JStr "/test1")];
   JObj [("method", JStr "POST"); ("path", JStr "/test2")]].

Definition sample_values : list JsValue :=
  [JArr []; JObj []; JNull; JNum 42; JArr sample_recorded;
   JObj [("version", JStr "5.15.0")]].

Definition sample_parse (s : string) : option JsValue :=
  find (fun v => String.eqb (sample_stringify v) s) sample_values.

Definition answering (o : FetchOutcome) : Network := fun _ _ => o.

Definition responding (st : Z) (t : string) : Network :=
  answering (FetchResponds {| status := st; body := TextOk t |}).

Definition sample_client : MockServerClient :=
  constructor {| cfg_host := "localhost"; cfg_port := 1080; cfg_timeout := None |}.

(** The matcher [{path: "/test"}]. *)
Definition path_test : RequestMatcher :=
  {| rm_method := None; rm_path := Some "/test"; rm_pathParameters := None;
     rm_queryStringParameters := None; rm_headers := None; rm_body := None |}.

(** The expectation [{httpRequest: {method: "GET", path: "/test"}}]. *)
Definition sample_expectation : Expectation :=
  {| ex_id := None;
     ex_httpRequest :=
       {| rm_method := Some "GET"; rm_path := Some "/test"; rm_pathParameters := None;
          rm_queryStringParameters := None; rm_headers := None; rm_body := None |};
     ex_httpResponse := None; ex_times := None; ex_timeToLive := None |}.

(** The matcher [{method: "GET", path: "/test"}]. *)
Definition get_test : RequestMatcher :=
  {| rm_method := Some "GET"; rm_path := Some "/test"; rm_pathParameters := None;
     rm_queryStringParameters := None; rm_headers := None; rm_body := None |}.

(** An expectation with multi-valued query string parameters. *)
Definition users_expectation : Expectation :=
  {| ex_id := None;
     ex_httpRequest :=
       {| rm_method := Some "GET"; rm_path := Some "/api/users";
          rm_pathParameters := None;
          rm_queryStringParameters :=
            Some [("page", ["1"]); ("limit", ["10"]); ("sort", ["name"; "asc"])];
          rm_headers := None; rm_body := None |};
     ex_httpResponse :=
       Some {| hr_statusCode := Some 200; hr_headers := None;
               hr_body := Some (JObj [("users", JArr [])]); hr_delay := None |};
     ex_times := None; ex_timeToLive := None |}.

(** A call abandoned by the timer. *)
Definition aborted : Network :=
  answering (FetchRejects (ThrowError "AbortError" "AbortError")).

(** A connection refused, as [fetch] reports it. *)
Definition refused : Network :=
  answering (FetchRejects (ThrowError "TypeError" "fetch failed: ECONNREFUSED")).

(** A client for an IPv6 loopback address, written as a URL needs it. *)
Definition ipv6_client : MockServerClient :=
  constructor {| cfg_host := "[::1]"; cfg_port := 1080; cfg_timeout := None |}.

(** Whether some string value of an error's details mentions [needle]. *)
Definition details_mention (needle : string) (e : ToolError) : bool :=
  match details e with
  | None => false
  | Some props =>
      existsb (fun kv => match snd kv with
                         | JStr s => Js.includes needle s
                         | _ => false
                         end) props
  end.

(** The value of [await response.text().catch(() => 'Unknown error')]. *)
Definition errorText (r : Response) : string :=
  match body r with
  | TextOk t => t
  | TextFails _ => "Unknown error"
  end.

(** The completion of [request] as a function of how its [fetch] ends
    (lemma [request_settles] relates the two). *)
Definition settle (JSON_parse : string -> option JsValue)
    (this : MockServerClient) (o : FetchOutcome) : Completion JsValue :=
  match o with
  | FetchRejects e => Rejected (classify this e)
  | FetchResponds r =>
      if ok r then
        match body r with
        | TextOk t =>
            Resolved (if String.eqb t "" then JObj []
                      else match JSON_parse t with
                           | Some v => v
                           | None => JStr t
                           end)
        | TextFails e => Rejected (classify this e)
        end
      else
        Rejected (ThrowTool
          (if status r =? 406
           then mkToolError VERIFICATION_FAILED ("Verification failed: " ++ errorText r)
                  (Some [("statusCode", JNum (status r))])
           else mkToolError MOCKSERVER_ERROR ("MockServer error: " ++ errorText r)
                  (Some [("statusCode", JNum (status r))])))
  end.

(* ================================================================= *)
(** ** [src/index.ts]: configuration from the environment *)

Definition DEFAULT_HOST : string := "localhost".
Definition DEFAULT_PORT : Z := 1080.

(** [process.env]: the value of a variable, if it is set. *)
Definition Env : Type := string -> option string.

(** [`${s}`] for a string that may be undefined. *)
Definition show_optional (s : option string) : string :=
  match s with
  | Some x => x
  | None => "undefined"
  end.

(** [getConfig()]: the configuration, and the lines it writes with
    [console.error]. *)
Definition getConfig (env : Env) : MockServerClientConfig * list string :=
  let host :=
    match env "MOCKSERVER_HOST" with
    | Some h => if String.eqb h "" then DEFAULT_HOST else h
    | None => DEFAULT_HOST
    end in
  let portStr := env "MOCKSERVER_PORT" in
  let port :=
    match portStr with
    | Some s => if String.eqb s "" then Js.Num DEFAULT_PORT else Js.parseInt (Some s)
    | None => Js.Num DEFAULT_PORT
    end in
  let fallback :=
    ({| cfg_host := host; cfg_port := DEFAULT_PORT; cfg_timeout := None |},
     ["Invalid MOCKSERVER_PORT: " ++ show_optional portStr
        ++ ". Using default: " ++ Js.Number_toString DEFAULT_PORT]) in
  match port with
  | Js.NaN => fallback
  | Js.Num p =>
      if (p <? 1) || (p >? 65535) then fallback
      else ({| cfg_host := host; cfg_port := p; cfg_timeout := None |}, [])
  end.


(* ================================================================= *)
(** ** Values from the wire, read without their types

    What the tool layer does with values whose TypeScript types are not
    checked at run time.  Thrown TypeErrors carry the messages of Node. *)

Definition TypeError (msg : string) : Thrown := ThrowError "TypeError" msg.

(** The integers that JavaScript writes in plain decimal notation, as
    [Js.Number_toString] does for all. *)
Definition plain_decimal (n : Z) : Prop := Z.abs n < 10 ^ 21.

(** Sequencing of steps that may throw but issue no call. *)
Definition cbind {A B : Type} (c : Completion A) (k : A -> Completion B) : Completion B :=
  match c with
  | Resolved a => k a
  | Rejected e => Rejected e
  end.

Notation "x <~ c ;; k" := (cbind c (fun x => k))
  (at level 61, c at next level, right associativity).

(** A step without a call, inside an [async] function. *)
Definition lift {A : Type} (c : Completion A) : Async A := fun log => (c, log).

(** Whether a condition holds of a value. *)
Definition truthy (v : option JsValue) : bool :=
  match v with
  | None | Some JNull => false
  | Some (JBool b) => b
  | Some (JNum n) => negb (n =? 0)
  | Some (JStr s) => negb (String.eqb s "")
  | Some (JArr _) | Some (JObj _) => true
  end.

(** [v ?? d]. *)
Definition nullish_value (v : option JsValue) (d : JsValue) : JsValue :=
  match v with
  | None | Some JNull => d
  | Some x => x
  end.

(** [strings.join(sep)]. *)
Fixpoint join (sep : string) (l : list string) : string :=
  match l with
  | [] => EmptyString
  | [s] => s
  | s :: more => s ++ sep ++ join sep more
  end.

(** Conversion to a string, as a template literal does it.  An array is
    its elements joined with commas, [null] elements giving the empty
    string; an object is "[object Object]", unless a property of its own
    hides [toString], and then there is no conversion. *)
Fixpoint ToString (v : JsValue) : Completion string :=
  match v with
  | JNull => Resolved "null"
  | JBool b => Resolved (if b then "true" else "false")
  | JNum n => Resolved (Js.Number_toString n)
  | JStr s => Resolved s
  | JArr items =>
      (fix elements (l : list JsValue) : Completion string :=
         match l with
         | [] => Resolved EmptyString
         | x :: more =>
             match match x with
                   | JNull => Resolved EmptyString
                   | _ => ToString x
                   end with
             | Rejected e => Rejected e
             | Resolved s =>
                 match more with
                 | [] => Resolved s
                 | _ => match elements more with
                        | Rejected e => Rejected e
                        | Resolved r => Resolved (s ++ "," ++ r)
                        end
                 end
             end
         end) items
  | JObj props =>
      match get_prop "toString" props with
      | Some _ => Rejected (TypeError "Cannot convert object to primitive value")
      | None => Resolved "[object Object]"
      end
  end.

(** [v.key] for the keys the handlers read, none of which a prototype
    defines: only an object can have them, and [null] has no properties. *)
Definition read_prop (v : JsValue) (key : string) : Completion (option JsValue) :=
  match v with
  | JNull => Rejected (TypeError ("Cannot read properties of null (reading '" ++ key ++ "')"))
  | JObj props => Resolved (get_prop key props)
  | _ => Resolved None
  end.

Fixpoint indexed (i : nat) (l : list JsValue) : list (string * JsValue) :=
  match l with
  | [] => []
  | x :: more => (Js.Number_toString (Z.of_nat i), x) :: indexed (S i) more
  end.

(** An array index: the decimal text, without leading zeros, of an integer
    from 0 to 2^32 - 2. *)
Definition array_index (key : string) : option Z :=
  if Js.starts_with_digit key then
    let n := Js.read_digits 0 key in
    if String.eqb key (Js.Number_toString n) && (n <=? 4294967294) then Some n else None
  else None.

Fixpoint insert_indexed (i : Z) (kv : string * JsValue)
    (sorted : list (Z * (string * JsValue))) : list (Z * (string * JsValue)) :=
  match sorted with
  | [] => [(i, kv)]
  | (j, kv') :: more =>
      if i <? j then (i, kv) :: sorted else (j, kv') :: insert_indexed i kv more
  end.

Fixpoint index_properties (props : list (string * JsValue))
  : list (Z * (string * JsValue)) :=
  match props with
  | [] => []
  | kv :: more =>
      match array_index (fst kv) with
      | Some i => insert_indexed i kv (index_properties more)
      | None => index_properties more
      end
  end.

(** The properties of an object in the order its keys are enumerated: the
    array indices first, ascending, then the other keys as inserted. *)
Definition own_properties (props : list (string * JsValue)) : list (string * JsValue) :=
  (map snd (index_properties props)
     ++ filter (fun kv => match array_index (fst kv) with
                          | Some _ => false
                          | None => true
                          end) props)%list.

(** [Object.entries(v)] of a value that is not [null]: the properties of an
    object, the elements of an array under their indices, the characters of
    a string under theirs, nothing for a number or a boolean. *)
Definition Object_entries (v : JsValue) : list (string * JsValue) :=
  match v with
  | JObj props => own_properties props
  | JArr items => indexed 0 items
  | JStr s => indexed 0 (map (fun c => JStr (String c EmptyString)) (list_ascii_of_string s))
  | _ => []
  end.

(** [xs.map(f)] for an [f] that may throw: left to right, up to the first
    throw. *)
Fixpoint map_throwing {A B : Type} (f : A -> Completion B) (l : list A) : Completion (list B) :=
  match l with
  | [] => Resolved []
  | x :: more =>
      y <~ f x ;;
      ys <~ map_throwing f more ;;
      Resolved (y :: ys)
  end.

Fixpoint map_indexed {A B : Type} (f : A -> nat -> Completion B) (i : nat) (l : list A)
  : Completion (list B) :=
  match l with
  | [] => Resolved []
  | x :: more =>
      y <~ f x i ;;
      ys <~ map_indexed f (S i) more ;;
      Resolved (y :: ys)
  end.

(* ================================================================= *)
(** ** The tools and the server *)

Definition nl : string := String "010"%char EmptyString.

(** An item [{type: 'text', text}] of a tool result. *)
Record TextContent : Type := {
  content_type : string;
  content_text : string
}.

Record ToolResult : Type := {
  content : list TextContent;
  isError : option bool
}.

(** What every handler returns: one text item. *)
Definition text_result (t : string) : ToolResult :=
  {| content := [{| content_type := "text"; content_text := t |}]; isError := None |}.

(** What the server returns for a failure: one text item, flagged. *)
Definition error_result (t : string) : ToolResult :=
  {| content := [{| content_type := "text"; content_text := t |}]; isError := Some true |}.

(** The result of a schema's [safeParse]: the parsed data, or the message
    and the issues of the validation error. *)
Inductive SafeParse (A : Type) : Type :=
  | ParseSuccess (data : A)
  | ParseFailure (error_message : string) (error_errors : JsValue).
Arguments ParseSuccess {A} data.
Arguments ParseFailure {A} error_message error_errors.

Record VerifyInput : Type := {
  vi_httpRequest : RequestMatcher;
  vi_times : option Times
}.

(** The input of the clear and the retrieve-requests tool. *)
Record MatcherInput : Type := {
  mi_httpRequest : option RequestMatcher
}.

(** [throw new ToolError('INVALID_PARAMETERS', ...)], as the four validating
    handlers do it. *)
Definition invalid_parameters (msg : string) (errors : JsValue) : Thrown :=
  ThrowTool (mkToolError INVALID_PARAMETERS ("Invalid parameters: " ++ msg)
               (Some [("errors", errors)])).

(** The expected count, in words (in [handleVerify]). *)
Definition timesDescription (times : option Times) : string :=
  match times with
  | Some t =>
      match exactly t with
      | Some n => "exactly " ++ Js.Number_toString n
      | None =>
          match atLeast t, atMost t with
          | Some l, Some m =>
              "between " ++ Js.Number_toString l ++ " and " ++ Js.Number_toString m
          | Some l, None => "at least " ++ Js.Number_toString l
          | None, Some m => "at most " ++ Js.Number_toString m
          | None, None => "any number of"
          end
      end
  | None => "at least 1"
  end.

(** [`${k}=${v.join(',')}`] for an entry of the query string parameters. *)
Definition query_entry (kv : string * JsValue) : Completion string :=
  match snd kv with
  | JArr items =>
      joined <~ ToString (JArr items) ;;
      Resolved (fst kv ++ "=" ++ joined)
  | JNull => Rejected (TypeError "Cannot read properties of null (reading 'join')")
  | _ => Rejected (TypeError "v.join is not a function")
  end.

(** The callback of [requests.map] in [handleRetrieveRequests]. *)
Definition request_summary (req : JsValue) (index : nat) : Completion string :=
  method <~ read_prop req "method" ;;
  method_text <~ ToString (nullish_value method (JStr "UNKNOWN")) ;;
  path <~ read_prop req "path" ;;
  path_text <~ ToString (nullish_value path (JStr "/")) ;;
  let parts :=
    [Js.Number_toString (Z.of_nat index + 1) ++ ". " ++ method_text ++ " " ++ path_text] in
  timestamp <~ read_prop req "timestamp" ;;
  parts <~ (if truthy timestamp then
              stamp <~ ToString (nullish_value timestamp JNull) ;;
              Resolved (List.app parts ["   Timestamp: " ++ stamp])
            else Resolved parts) ;;
  query <~ read_prop req "queryStringParameters" ;;
  parts <~ (if truthy query then
              entries <~ map_throwing query_entry
                           (Object_entries (nullish_value query JNull)) ;;
              let params := join "&" entries in
              Resolved (if String.eqb params "" then parts
                        else List.app parts ["   Query: " ++ params])
            else Resolved parts) ;;
  Resolved (join nl parts).

Section Tools.

Variable net : Network.
Variable JSON_parse : string -> option JsValue.
Variable JSON_stringify : JsValue -> string.

(** The schemas of the validating tools, by their [safeParse]. *)
Variable CreateExpectationInputSchema : option JsValue -> SafeParse Expectation.
Variable VerifyInputSchema : option JsValue -> SafeParse VerifyInput.
Variable ClearInputSchema : option JsValue -> SafeParse MatcherInput.
Variable RetrieveRequestsInputSchema : option JsValue -> SafeParse MatcherInput.

(** [handleStatus(client, _input)]. *)
Definition handleStatus (client : MockServerClient) (_input : option JsValue)
  : Async ToolResult :=
  status <- getStatus net JSON_parse JSON_stringify client ;;
  let statusText := if reachable status then "✓ Connected" else "✗ Unreachable" in
  versionInfo <- (if truthy (version status) then
                    shown <- lift (ToString (nullish_value (version status) JNull)) ;;
                    ret (nl ++ "Version: " ++ shown)
                  else ret EmptyString) ;;
  ret (text_result
         ("MockServer Status: " ++ statusText ++ nl ++ nl ++ "Configuration:" ++ nl
            ++ "- Host: " ++ host status ++ nl
            ++ "- Port: " ++ match port status with
                             | Js.Num p => Js.Number_toString p
                             | Js.NaN => "NaN"
                             end
            ++ versionInfo)).

(** [handleReset(client, _input)]. *)
Definition handleReset (client : MockServerClient) (_input : option JsValue)
  : Async ToolResult :=
  _ <- reset net JSON_parse JSON_stringify client ;;
  ret (text_result
         "MockServer has been fully reset. All expectations and recorded requests have been cleared.").

(** [handleClear(client, input)]. *)
Definition handleClear (client : MockServerClient) (input : option JsValue)
  : Async ToolResult :=
  match ClearInputSchema input with
  | ParseFailure msg errors => throw (invalid_parameters msg errors)
  | ParseSuccess data =>
      let httpRequest := mi_httpRequest data in
      _ <- clear net JSON_parse JSON_stringify client httpRequest ;;
      match httpRequest with
      | Some r =>
          let criteria :=
            List.app
              match rm_method r with
              | Some m => if String.eqb m "" then [] else ["Method: " ++ m]
              | None => []
              end
              match rm_path r with
              | Some p => if String.eqb p "" then [] else ["Path: " ++ p]
              | None => []
              end in
          ret (text_result
                 ("Cleared expectations and recorded requests matching:" ++ nl
                    ++ match criteria with
                       | [] => "- All matching criteria provided"
                       | _ => join nl (map (fun c => "- " ++ c) criteria)
                       end))
      | None =>
          ret (text_result "Cleared all expectations and recorded requests from MockServer.")
      end
  end.

(** [handleVerify(client, input)]. *)
Definition handleVerify (client : MockServerClient) (input : option JsValue)
  : Async ToolResult :=
  match VerifyInputSchema input with
  | ParseFailure msg errors => throw (invalid_parameters msg errors)
  | ParseSuccess data =>
      let httpRequest := vi_httpRequest data in
      let times := vi_times data in
      result <- verify net JSON_parse JSON_stringify client httpRequest times ;;
      let report :=
        nl ++ nl ++ "Expected: " ++ timesDescription times ++ " request(s)" ++ nl
           ++ "Matched: " ++ Js.Number_toString (matchedCount result) ++ " request(s)"
           ++ nl ++ nl ++ "Criteria:" ++ nl
           ++ "- Method: " ++ nullish (rm_method httpRequest) "ANY" ++ nl
           ++ "- Path: " ++ nullish (rm_path httpRequest) "/*" in
      if success result then ret (text_result ("Verification PASSED." ++ report))
      else
        ret (text_result
               ("Verification FAILED." ++ report
                  ++ match vr_message result with
                     | Some m => if String.eqb m "" then EmptyString
                                 else nl ++ nl ++ "Details: " ++ m
                     | None => EmptyString
                     end))
  end.

(** [handleCreateExpectation(client, input)]. *)
Definition handleCreateExpectation (client : MockServerClient) (input : option JsValue)
  : Async ToolResult :=
  match CreateExpectationInputSchema input with
  | ParseFailure msg errors => throw (invalid_parameters msg errors)
  | ParseSuccess expectation =>
      _ <- createExpectation net JSON_parse JSON_stringify client expectation ;;
      let summary_id := ex_id expectation in
      let summary_method := nullish (rm_method (ex_httpRequest expectation)) "ANY" in
      let summary_path := nullish (rm_path (ex_httpRequest expectation)) "/*" in
      let summary_statusCode :=
        nullish (chain (ex_httpResponse expectation) hr_statusCode) 200 in
      ret (text_result
             ("Expectation created successfully." ++ nl ++ nl ++ "Details:" ++ nl
                ++ "- Method: " ++ summary_method ++ nl
                ++ "- Path: " ++ summary_path ++ nl
                ++ "- Response Status: " ++ Js.Number_toString summary_statusCode
                ++ match summary_id with
                   | Some i => if String.eqb i "" then EmptyString
                               else nl ++ "- ID: " ++ i
                   | None => EmptyString
                   end))
  end.

(** [handleRetrieveRequests(client, input)]. *)
Definition handleRetrieveRequests (client : MockServerClient) (input : option JsValue)
  : Async ToolResult :=
  match RetrieveRequestsInputSchema input with
  | ParseFailure msg errors => throw (invalid_parameters msg errors)
  | ParseSuccess data =>
      let httpRequest := mi_httpRequest data in
      requests <- retrieveRecordedRequests net JSON_parse JSON_stringify client httpRequest ;;
      match requests with
      | [] =>
          let filterInfo :=
            match httpRequest with
            | Some r =>
                " matching criteria (" ++ nullish (rm_method r) "ANY" ++ " "
                  ++ nullish (rm_path r) "/*" ++ ")"
            | None => EmptyString
            end in
          ret (text_result ("No recorded requests found" ++ filterInfo ++ "."))
      | _ =>
          requestSummaries <- lift (map_indexed request_summary 0 requests) ;;
          ret (text_result
                 ("Retrieved " ++ Js.Number_toString (Z.of_nat (List.length requests))
                    ++ " recorded request(s):" ++ nl ++ nl
                    ++ join (nl ++ nl) requestSummaries))
      end
  end.

(** A handler, as the registry holds it. *)
Definition ToolHandler : Type := MockServerClient -> option JsValue -> Async ToolResult.

(** A tool's definition: its name and description.  (Its input schema, a
    constant object that only the tool listing returns, is left out.) *)
Record ToolDefinition : Type := {
  td_name : string;
  td_description : string
}.

Record RegisteredTool : Type := {
  definition : ToolDefinition;
  handler : ToolHandler
}.

Definition createExpectationTool : ToolDefinition :=
  {| td_name := "mockserver_create_expectation";
     td_description := "Create a mock HTTP expectation on MockServer. Define request matching criteria and the response to return." |}.

Definition verifyTool : ToolDefinition :=
  {| td_name := "mockserver_verify";
     td_description := "Verify that requests matching criteria were received by MockServer. Returns verification result with match count." |}.

Definition clearTool : ToolDefinition :=
  {| td_name := "mockserver_clear";
     td_description := "Clear expectations and recorded requests from MockServer. Optionally filter by request matcher." |}.

Definition resetTool : ToolDefinition :=
  {| td_name := "mockserver_reset";
     td_description := "Perform a full reset of MockServer, clearing all expectations and recorded requests." |}.

Definition retrieveRequestsTool : ToolDefinition :=
  {| td_name := "mockserver_retrieve_requests";
     td_description := "Retrieve recorded requests from MockServer. Optionally filter by request matcher." |}.

Definition statusTool : ToolDefinition :=
  {| td_name := "mockserver_status";
     td_description := "Get MockServer connection status and configuration. Returns host, port, and reachability." |}.

(** [tools], the registry. *)
Definition tools : list RegisteredTool :=
  [ {| definition := createExpectationTool; handler := handleCreateExpectation |};
    {| definition := verifyTool; handler := handleVerify |};
    {| definition := clearTool; handler := handleClear |};
    {| definition := resetTool; handler := handleReset |};
    {| definition := retrieveRequestsTool; handler := handleRetrieveRequests |};
    {| definition := statusTool; handler := handleStatus |} ].

(** [getToolHandler(name)]. *)
Definition getToolHandler (name : string) : option ToolHandler :=
  match find (fun t => String.eqb (td_name (definition t)) name) tools with
  | Some t => Some (handler t)
  | None => None
  end.

(** [getToolDefinitions()]. *)
Definition getToolDefinitions : list ToolDefinition := map definition tools.

(** The parameters of a tool call. *)
Record CallToolParams : Type := {
  params_name : string;
  params_arguments : option JsValue
}.

(** [error instanceof Error ? error.message : String(error)]. *)
Definition errorMessage (error : Thrown) : string :=
  match error with
  | ThrowTool e => message e
  | ThrowError _ msg => msg
  | ThrowValue shown => shown
  end.

(** The handler [createServer] registers for tool calls. *)
Definition callTool (client : MockServerClient) (params : CallToolParams)
  : Async ToolResult :=
  let name := params_name params in
  let args := params_arguments params in
  match getToolHandler name with
  | None => ret (error_result ("Unknown tool: " ++ name))
  | Some h =>
      try_catch (h client args)
        (fun error =>
           ret (error_result ("Error executing " ++ name ++ ": " ++ errorMessage error)))
  end.

End Tools.

(** *** Sample environments and schemas *)

Definition env_with (host port : option string) : Env :=
  fun key =>
    if String.eqb key "MOCKSERVER_HOST" then host
    else if String.eqb key "MOCKSERVER_PORT" then port
    else None.

(** A call abandoned by the timer, and a failure of another kind. *)
Definition rejecting (name msg : string) : Network :=
  answering (FetchRejects (ThrowError name msg)).


Definition accepting {A : Type} (data : A) : option JsValue -> SafeParse A :=
  fun _ => ParseSuccess data.

Definition refusing {A : Type} (msg : string) : option JsValue -> SafeParse A :=
  fun _ => ParseFailure msg (JArr []).

(* ================================================================= *)
(** ** Facts about strings *)

Lemma prefix_refl (s : string) : prefix s s = true.
Proof.
  induction s as [| c s IH]; cbn; [reflexivity |].
  destruct (ascii_dec c c); [exact IH | contradiction].
Qed.

Lemma includes_self (s : string) : Js.includes s s = true.
Proof.
  destruct s; cbn [Js.includes]; rewrite prefix_refl; reflexivity.
Qed.

(** A string occurs in whatever it is appended to. *)
Lemma includes_app_r (p s : string) : Js.includes s (p ++ s) = true.
Proof.
  induction p as [| c p IH]; cbn [append].
  - apply includes_self.
  - cbn [Js.includes]. rewrite IH. apply orb_true_r.
Qed.

Lemma append_assoc (a b c : string) : (a ++ b) ++ c = a ++ (b ++ c).
Proof.
  induction a as [| x a IH]; cbn; [reflexivity | now rewrite IH].
Qed.

(* ================================================================= *)
(** ** Reading the base URL back *)

Section BaseUrlFacts.

(** [s] has no colon. *)
Local Notation "'colon_free' s" := (Js.includes ":" s = false) (at level 10, s at level 9).

Lemma colon_free_cons c s :
  colon_free (String c s) <-> c <> ":"%char /\ colon_free s.
Proof.
  cbn [Js.includes prefix].
  destruct (ascii_dec ":" c) as [<- | Hne].
  - destruct s; cbn; (split; [discriminate | intros [H _]; contradiction]).
  - cbn [orb]. split; [intros H; split; [congruence | exact H] | intros [_ H]; exact H].
Qed.

Lemma split_colon_free s : colon_free s -> Js.split ":" s = [s].
Proof.
  induction s as [| c s IH]; intros H; [reflexivity |].
  apply colon_free_cons in H. destruct H as [Hc Hs].
  cbn [Js.split]. apply Ascii.eqb_neq in Hc. rewrite Hc, (IH Hs). reflexivity.
Qed.

Lemma split_at_first_colon h rest :
  colon_free h -> Js.split ":" (h ++ String ":" rest) = h :: Js.split ":" rest.
Proof.
  induction h as [| c h IH]; intros H; [reflexivity |].
  apply colon_free_cons in H. destruct H as [Hc Hh].
  cbn [append Js.split]. apply Ascii.eqb_neq in Hc. rewrite Hc, (IH Hh). reflexivity.
Qed.

Lemma digit_cases d : 0 <= d < 10 ->
  d = 0 \/ d = 1 \/ d = 2 \/ d = 3 \/ d = 4 \/ d = 5 \/ d = 6 \/ d = 7 \/ d = 8 \/ d = 9.
Proof. lia. Qed.

Lemma digit_char_spec d : 0 <= d < 10 ->
  Js.is_digit (Js.digit_char d) = true
  /\ Js.digit_value (Js.digit_char d) = d
  /\ Js.digit_char d <> ":"%char.
Proof.
  intros H. apply digit_cases in H.
  repeat (destruct H as [-> | H]; [repeat split; discriminate || reflexivity |]).
  subst d. repeat split; discriminate || reflexivity.
Qed.

Lemma decimal_digits_colon_free fuel : forall n acc,
  0 <= n -> colon_free acc -> colon_free (Js.decimal_digits fuel n acc).
Proof.
  induction fuel as [| fuel IH]; intros n acc Hn Hacc; [exact Hacc |].
  cbn [Js.decimal_digits].
  assert (Hd : 0 <= n mod 10 < 10) by (apply Z.mod_pos_bound; lia).
  assert (Hacc' : colon_free (String (Js.digit_char (n mod 10)) acc)).
  { apply colon_free_cons. split; [apply digit_char_spec; exact Hd | exact Hacc]. }
  destruct (n / 10 =? 0); [exact Hacc' |].
  apply IH; [apply Z.div_pos; lia | exact Hacc'].
Qed.

Lemma decimal_digits_head fuel : forall n acc,
  0 <= n ->
  exists c rest, Js.decimal_digits (S fuel) n acc = String c rest
                 /\ Js.is_digit c = true.
Proof.
  induction fuel as [| fuel IH]; intros n acc Hn.
  - cbn [Js.decimal_digits]. exists (Js.digit_char (n mod 10)), acc.
    split; [destruct (n / 10 =? 0); reflexivity |].
    apply digit_char_spec. apply Z.mod_pos_bound; lia.
  - change (Js.decimal_digits (S (S fuel)) n acc)
      with (let acc' := String (Js.digit_char (n mod 10)) acc in
            if n / 10 =? 0 then acc' else Js.decimal_digits (S fuel) (n / 10) acc').
    cbv zeta. destruct (n / 10 =? 0).
    + exists (Js.digit_char (n mod 10)), acc. split; [reflexivity |].
      apply digit_char_spec. apply Z.mod_pos_bound; lia.
    + apply IH. apply Z.div_pos; lia.
Qed.

(** Reading the digits of [n] back gives [n]. *)
Lemma read_decimal_digits fuel : forall n acc,
  0 <= n < 2 ^ Z.of_nat fuel ->
  Js.read_digits 0 (Js.decimal_digits fuel n acc) = Js.read_digits n acc.
Proof.
  induction fuel as [| fuel IH]; intros n acc Hn.
  - cbn in Hn. assert (n = 0) by lia. subst n. reflexivity.
  - cbn [Js.decimal_digits].
    assert (Hd : 0 <= n mod 10 < 10) by (apply Z.mod_pos_bound; lia).
    destruct (digit_char_spec _ Hd) as (Hdig & Hval & _).
    assert (Hstep : Js.read_digits (n / 10) (String (Js.digit_char (n mod 10)) acc)
                    = Js.read_digits n acc).
    { cbn [Js.read_digits]. rewrite Hdig, Hval. f_equal.
      pose proof (Z.div_mod n 10). lia. }
    destruct (n / 10 =? 0) eqn:Hq.
    + apply Z.eqb_eq in Hq. rewrite <- Hstep, Hq. reflexivity.
    + rewrite IH; [exact Hstep |].
      rewrite Nat2Z.inj_succ, Z.pow_succ_r in Hn by lia.
      split; [apply Z.div_pos; lia |].
      apply Z.div_lt_upper_bound; lia.
Qed.

Lemma digits_fuel_enough n : 0 <= n -> n < 2 ^ Z.of_nat (Js.digits_fuel n).
Proof.
  intros Hn. unfold Js.digits_fuel.
  rewrite Nat2Z.inj_succ, Z2Nat.id by apply Z.log2_nonneg.
  destruct (Z.eq_dec n 0) as [-> | Hne]; [reflexivity |].
  apply Z.log2_spec. lia.
Qed.

Lemma parseInt_Number_toString n :
  0 <= n -> Js.parseInt (Some (Js.Number_toString n)) = Js.Num n.
Proof.
  intros Hn. unfold Js.Number_toString.
  destruct (n <? 0) eqn:Hneg; [apply Z.ltb_lt in Hneg; lia |].
  pose proof (read_decimal_digits (Js.digits_fuel n) n EmptyString
                (conj Hn (digits_fuel_enough n Hn))) as Hread.
  unfold Js.digits_fuel in *.
  destruct (decimal_digits_head (Z.to_nat (Z.log2 n)) n EmptyString Hn)
    as (c & rest & Heq & Hc).
  rewrite Heq in *. unfold Js.parseInt. cbn [Js.trim_start].
  assert (Hsp : Js.is_space c = false).
  { revert Hc. unfold Js.is_digit, Js.is_space. lia. }
  rewrite Hsp.
  assert (Hsign : c <> "-"%char /\ c <> "+"%char).
  { split; intros ->; discriminate Hc. }
  destruct Hsign as [Hm Hp].
  destruct c as [[] [] [] [] [] [] [] []];
    try (exfalso; apply Hm; reflexivity);
    try (exfalso; apply Hp; reflexivity);
    cbn [Js.starts_with_digit]; rewrite Hc; rewrite Hread; reflexivity.
Qed.

Lemma prefix_empty s : prefix "" s = true.
Proof. destruct s; reflexivity. Qed.

(** The scheme is found at the very start of the base URL, so that is
    the occurrence [replace] removes. *)
Lemma replace_scheme s : Js.replace "http://" "" ("http://" ++ s) = s.
Proof.
  cbn [append Js.replace prefix String.length Js.skip].
  repeat (match goal with
          | |- context [ascii_dec ?a ?b] =>
              destruct (ascii_dec a b); [| contradiction]
          end).
  rewrite prefix_empty. reflexivity.
Qed.

(** For a host without a colon and a port that is not negative,
    [getStatus] reads back from the base URL what the constructor wrote. *)
Lemma status_host_port_roundtrip h p t :
  colon_free h -> 0 <= p ->
  status_host_port (constructor {| cfg_host := h; cfg_port := p; cfg_timeout := t |})
  = (h, Js.Num p).
Proof.
  intros Hh Hp. unfold status_host_port, constructor. cbn [baseUrl cfg_host cfg_port].
  rewrite replace_scheme. change (":" ++ Js.Number_toString p)
    with (String ":" (Js.Number_toString p)).
  rewrite split_at_first_colon by exact Hh.
  rewrite split_colon_free.
  - rewrite parseInt_Number_toString by exact Hp. reflexivity.
  - unfold Js.Number_toString.
    destruct (p <? 0) eqn:Hneg; [apply Z.ltb_lt in Hneg; lia |].
    apply decimal_digits_colon_free; [exact Hp | reflexivity].
Qed.

End BaseUrlFacts.

(* ================================================================= *)
(** ** Facts about the request primitive *)

Section RequestFacts.

Variable net : Network.
Variable JSON_parse : string -> option JsValue.
Variable JSON_stringify : JsValue -> string.

Local Notation "'request_'" := (request net JSON_parse JSON_stringify).
Local Notation "'call_'" := (request_call JSON_stringify).

(** One call is issued, and its outcome alone decides the completion. *)
Lemma request_settles this path method payload q log :
  request_ this path method payload q log
  = (settle JSON_parse this (net log (call_ this path method payload q)),
     (log ++ [call_ this path method payload q])%list).
Proof.
  unfold request, try_catch, bind, fetch, text, throw, ret, settle, errorText.
  destruct (net log _) as [e | r]; [reflexivity |].
  destruct (ok r); cbn [negb].
  - destruct (body r) as [t | e]; [| reflexivity].
    cbv beta iota.
    destruct (String.eqb t ""); [reflexivity |].
    destruct (JSON_parse t); reflexivity.
  - destruct (body r); cbv beta iota;
      destruct (status r =? 406); reflexivity.
Qed.

(** [request] only ever throws a typed failure. *)
Lemma classify_typed this e : exists te, classify this e = ThrowTool te.
Proof.
  destruct e as [te | name msg | shown]; cbn [classify]; eauto.
  destruct (String.eqb name "AbortError"); eauto.
  destruct (connection_signature msg); eauto.
Qed.

Lemma request_throws_typed this path method payload q log e log' :
  request_ this path method payload q log = (Rejected e, log') ->
  exists te, e = ThrowTool te.
Proof.
  rewrite request_settles. intros H. injection H as H _. revert H.
  unfold settle. destruct (net log _) as [e0 | r].
  - intros [= <-]. apply classify_typed.
  - destruct (ok r).
    + destruct (body r) as [t | e0]; [discriminate |].
      intros [= <-]. apply classify_typed.
    + intros [= <-]. eauto.
Qed.

End RequestFacts.

(* ================================================================= *)
(** ** The verify operation *)

Section VerifyFacts.

Variable net : Network.
Variable JSON_parse : string -> option JsValue.
Variable JSON_stringify : JsValue -> string.

Local Notation "'request_'" := (request net JSON_parse JSON_stringify).
Local Notation "'verify_'" := (verify net JSON_parse JSON_stringify).
Local Notation "'call_'" := (request_call JSON_stringify).

(** C1.  When the transport answers the verify call with status 406,
    [verify] does not raise: it resolves to
    [{success: false, matchedCount: 0, message}], the message being
    "Verification failed: " followed by the body text (by the placeholder
    when the body cannot be read).  Every failure of the underlying
    request that is not the verification-mismatch kind is rethrown as it
    is. *)
Theorem verify_catches_mismatch :
  forall this req times log,
    (forall b,
        net log (call_ this "/mockserver/verify" "PUT" (verify_body req times) None)
        = FetchResponds {| status := 406; body := b |} ->
        verify_ this req times log
        = (Resolved {| success := false;
                       matchedCount := 0;
                       vr_message :=
                         Some ("Verification failed: " ++
                               match b with
                               | TextOk t => t
                               | TextFails _ => "Unknown error"
                               end) |},
           (log ++ [call_ this "/mockserver/verify" "PUT" (verify_body req times) None])%list)
        /\ Js.includes "Verification failed"
             ("Verification failed: " ++
              match b with
              | TextOk t => t
              | TextFails _ => "Unknown error"
              end) = true)
    /\
    (forall e log',
        request_ this "/mockserver/verify" "PUT" (verify_body req times) None log
        = (Rejected e, log') ->
        (forall te, e = ThrowTool te -> code te <> VERIFICATION_FAILED) ->
        verify_ this req times log = (Rejected e, log')).
Proof.
  intros this req times log. split.
  - intros b Hnet. split; [| reflexivity].
    unfold verify, try_catch, bind.
    rewrite request_settles, Hnet. reflexivity.
  - intros e log' Hreq Hkind.
    unfold verify, try_catch, bind. rewrite Hreq.
    destruct e as [te | name msg | shown]; try reflexivity.
    specialize (Hkind te eq_refl).
    destruct (code te); try reflexivity. contradiction.
Qed.

(** C4.  When the verify call succeeds, [verify] resolves to
    [{success: true, matchedCount: n}] with [n] the count spec's [exactly]
    if present, else its [atLeast] if present, else 1, whatever value the
    request resolved to; a success status with a readable body is such a
    case.  Nothing of the response enters the count. *)
Theorem verify_success_count :
  forall this req times log,
    (forall v log',
        request_ this "/mockserver/verify" "PUT" (verify_body req times) None log
        = (Resolved v, log') ->
        verify_ this req times log
        = (Resolved {| success := true;
                       matchedCount :=
                         match times with
                         | None => 1
                         | Some spec =>
                             match exactly spec, atLeast spec with
                             | Some n, _ => n
                             | None, Some n => n
                             | None, None => 1
                             end
                         end;
                       vr_message := None |}, log'))
    /\
    (forall r t,
        net log (call_ this "/mockserver/verify" "PUT" (verify_body req times) None)
        = FetchResponds r ->
        ok r = true ->
        body r = TextOk t ->
        verify_ this req times log
        = (Resolved {| success := true;
                       matchedCount :=
                         match times with
                         | None => 1
                         | Some spec =>
                             match exactly spec, atLeast spec with
                             | Some n, _ => n
                             | None, Some n => n
                             | None, None => 1
                             end
                         end;
                       vr_message := None |},
           (log ++ [call_ this "/mockserver/verify" "PUT" (verify_body req times) None])%list)).
Proof.
  intros this req times log.
  assert (Hresolved : forall v log',
             request_ this "/mockserver/verify" "PUT" (verify_body req times) None log
             = (Resolved v, log') ->
             verify_ this req times log
             = (Resolved {| success := true;
                            matchedCount :=
                              match times with
                              | None => 1
                              | Some spec =>
                                  match exactly spec, atLeast spec with
                                  | Some n, _ => n
                                  | None, Some n => n
                                  | None, None => 1
                                  end
                              end;
                            vr_message := None |}, log')).
  { intros v log' Hreq. unfold verify, try_catch, bind. rewrite Hreq.
    unfold ret. do 2 f_equal.
    destruct times as [[[l |] m [n |]] |]; reflexivity. }
  split; [exact Hresolved |].
  intros r t Hnet Hok Hbody.
  eapply Hresolved.
  rewrite request_settles, Hnet. unfold settle. rewrite Hok, Hbody. reflexivity.
Qed.

End VerifyFacts.

(* ================================================================= *)
(** ** Classification of failures and interpretation of responses *)

Section ClassificationFacts.

Variable net : Network.
Variable JSON_parse : string -> option JsValue.
Variable JSON_stringify : JsValue -> string.

Local Notation "'request_'" := (request net JSON_parse JSON_stringify).
Local Notation "'call_'" := (request_call JSON_stringify).

(** C2 (amended).  A [fetch] that rejects is classified once, by
    [request], which issues that one call: an error named AbortError
    becomes CONNECTION_TIMEOUT (details: the base URL under [host]); any
    other error whose message has a connection signature becomes
    CONNECTION_FAILED, whose message ends with the base URL and whose
    details hold the original message under [originalError]; any other
    error or thrown value becomes UNKNOWN_ERROR; a [ToolError] is rethrown
    as it is. *)
Theorem request_classifies_rejection :
  forall this path method payload q log e,
    net log (call_ this path method payload q) = FetchRejects e ->
    snd (request_ this path method payload q log)
    = (log ++ [call_ this path method payload q])%list
    /\ (forall te,
           e = ThrowTool te ->
           fst (request_ this path method payload q log) = Rejected (ThrowTool te))
    /\ (forall msg,
           e = ThrowError "AbortError" msg ->
           fst (request_ this path method payload q log)
           = Rejected (ThrowTool
               (mkToolError CONNECTION_TIMEOUT
                  ("Connection to MockServer timed out after "
                     ++ Js.Number_toString (timeout this) ++ "ms")
                  (Some [("host", JStr (baseUrl this))]))))
    /\ (forall name msg,
           e = ThrowError name msg ->
           name <> "AbortError" ->
           connection_signature msg = true ->
           fst (request_ this path method payload q log)
           = Rejected (ThrowTool
               (mkToolError CONNECTION_FAILED
                  ("Cannot connect to MockServer at " ++ baseUrl this)
                  (Some [("originalError", JStr msg)])))
           /\ Js.includes (baseUrl this)
                ("Cannot connect to MockServer at " ++ baseUrl this) = true)
    /\ (forall name msg,
           e = ThrowError name msg ->
           name <> "AbortError" ->
           connection_signature msg = false ->
           fst (request_ this path method payload q log)
           = Rejected (ThrowTool
               (mkToolError UNKNOWN_ERROR ("Unexpected error: " ++ msg) None)))
    /\ (forall shown,
           e = ThrowValue shown ->
           fst (request_ this path method payload q log)
           = Rejected (ThrowTool
               (mkToolError UNKNOWN_ERROR ("Unexpected error: " ++ shown) None))).
Proof.
  intros this path method payload q log e Hnet.
  rewrite request_settles, Hnet. cbn [settle fst snd].
  split; [reflexivity |].
  split; [intros te ->; reflexivity |].
  split; [intros msg ->; reflexivity |].
  split; [| split].
  - intros name msg -> Hname Hsig. cbn [classify].
    apply String.eqb_neq in Hname. rewrite Hname, Hsig.
    split; [reflexivity | apply includes_app_r].
  - intros name msg -> Hname Hsig. cbn [classify].
    apply String.eqb_neq in Hname. rewrite Hname, Hsig. reflexivity.
  - intros shown ->. reflexivity.
Qed.

(** C6.  On a success status with a readable body the result of
    [request] is a function of the body text: the empty-object value for
    an empty body, the parsed value when a non-empty body parses, and the
    text itself, without raising, when it does not. *)
Theorem request_success_value :
  forall this path method payload q log r t,
    net log (call_ this path method payload q) = FetchResponds r ->
    ok r = true ->
    body r = TextOk t ->
    (t = "" ->
     request_ this path method payload q log
     = (Resolved (JObj []), (log ++ [call_ this path method payload q])%list))
    /\ (forall v, t <> "" -> JSON_parse t = Some v ->
        request_ this path method payload q log
        = (Resolved v, (log ++ [call_ this path method payload q])%list))
    /\ (t <> "" -> JSON_parse t = None ->
        request_ this path method payload q log
        = (Resolved (JStr t), (log ++ [call_ this path method payload q])%list)).
Proof.
  intros this path method payload q log r t Hnet Hok Hbody.
  rewrite request_settles, Hnet. unfold settle. rewrite Hok, Hbody.
  repeat split.
  - intros ->. reflexivity.
  - intros v Hne Hparse. apply String.eqb_neq in Hne.
    rewrite Hne, Hparse. reflexivity.
  - intros Hne Hparse. apply String.eqb_neq in Hne.
    rewrite Hne, Hparse. reflexivity.
Qed.

End ClassificationFacts.

(* ================================================================= *)
(** ** The operations built on the request primitive *)

Section OperationFacts.

Variable net : Network.
Variable JSON_parse : string -> option JsValue.
Variable JSON_stringify : JsValue -> string.

Local Notation "'request_'" := (request net JSON_parse JSON_stringify).
Local Notation "'call_'" := (request_call JSON_stringify).
Local Notation "'createExpectation_'" := (createExpectation net JSON_parse JSON_stringify).
Local Notation "'clear_'" := (clear net JSON_parse JSON_stringify).
Local Notation "'reset_'" := (reset net JSON_parse JSON_stringify).
Local Notation "'retrieve_'" := (retrieveRecordedRequests net JSON_parse JSON_stringify).
Local Notation "'getStatus_'" := (getStatus net JSON_parse JSON_stringify).

Local Notation "'remote_error' r" :=
  (ThrowTool (mkToolError MOCKSERVER_ERROR ("MockServer error: " ++ errorText r)
                (Some [("statusCode", JNum (status r))])))
  (at level 10, r at level 9).
Local Notation "'mismatch_error' r" :=
  (ThrowTool (mkToolError VERIFICATION_FAILED ("Verification failed: " ++ errorText r)
                (Some [("statusCode", JNum (status r))])))
  (at level 10, r at level 9).

Lemma request_not_ok this path method payload q log r :
  net log (call_ this path method payload q) = FetchResponds r ->
  ok r = false ->
  request_ this path method payload q log
  = (Rejected (if status r =? 406 then mismatch_error r else remote_error r),
     (log ++ [call_ this path method payload q])%list).
Proof.
  intros Hnet Hok. rewrite request_settles, Hnet. unfold settle. rewrite Hok.
  destruct (status r =? 406); reflexivity.
Qed.

(** An operation that awaits [request] and has nothing to catch passes a
    rejection on. *)
Lemma bind_rejected {A B : Type} (m : Async A) (k : A -> Async B) log e log' :
  m log = (Rejected e, log') -> bind m k log = (Rejected e, log').
Proof. intros H. unfold bind. rewrite H. reflexivity. Qed.

Lemma bind_resolved {A B : Type} (m : Async A) (k : A -> Async B) log a log' :
  m log = (Resolved a, log') -> bind m k log = k a log'.
Proof. intros H. unfold bind. rewrite H. reflexivity. Qed.

(** C5 (amended).  For createExpectation, clear, reset and
    retrieveRecordedRequests, a response whose status is not a success
    status and is not 406 raises MOCKSERVER_ERROR, with the body text (or
    the placeholder) in the message and the status code in the details; a
    406 raises VERIFICATION_FAILED for these operations too. *)
Theorem operations_raise_remote_error :
  forall this log r,
    ok r = false ->
    (status r <> 406 ->
       (forall ex,
           net log (call_ this "/mockserver/expectation" "PUT" (Expectation_js ex) None)
           = FetchResponds r ->
           fst (createExpectation_ this ex log) = Rejected (remote_error r))
       /\ (forall m,
           net log (call_ this "/mockserver/clear" "PUT" (matcher_body m) None)
           = FetchResponds r ->
           fst (clear_ this m log) = Rejected (remote_error r))
       /\ (net log (call_ this "/mockserver/reset" "PUT" (JObj []) None)
           = FetchResponds r ->
           fst (reset_ this log) = Rejected (remote_error r))
       /\ (forall m,
           net log (call_ this "/mockserver/retrieve" "PUT" (matcher_body m)
                      (Some [("type", "REQUESTS")]))
           = FetchResponds r ->
           fst (retrieve_ this m log) = Rejected (remote_error r)))
    /\
    (status r = 406 ->
       (forall ex,
           net log (call_ this "/mockserver/expectation" "PUT" (Expectation_js ex) None)
           = FetchResponds r ->
           fst (createExpectation_ this ex log) = Rejected (mismatch_error r))
       /\ (forall m,
           net log (call_ this "/mockserver/clear" "PUT" (matcher_body m) None)
           = FetchResponds r ->
           fst (clear_ this m log) = Rejected (mismatch_error r))
       /\ (net log (call_ this "/mockserver/reset" "PUT" (JObj []) None)
           = FetchResponds r ->
           fst (reset_ this log) = Rejected (mismatch_error r))
       /\ (forall m,
           net log (call_ this "/mockserver/retrieve" "PUT" (matcher_body m)
                      (Some [("type", "REQUESTS")]))
           = FetchResponds r ->
           fst (retrieve_ this m log) = Rejected (mismatch_error r))).
Proof.
  intros this log r Hok.
  assert (Hpass : forall path payload q (B : Type) (k : JsValue -> Async B),
             net log (call_ this path "PUT" payload q) = FetchResponds r ->
             fst (bind (request_ this path "PUT" payload q) k log)
             = Rejected (if status r =? 406 then mismatch_error r else remote_error r)).
  { intros path payload q B k Hnet.
    erewrite bind_rejected; [reflexivity |].
    apply request_not_ok; assumption. }
  split; intros Hst.
  - apply Z.eqb_neq in Hst.
    repeat split; intros; unfold createExpectation, clear, reset, retrieveRecordedRequests;
      rewrite Hpass by assumption; rewrite Hst; reflexivity.
  - apply Z.eqb_eq in Hst.
    repeat split; intros; unfold createExpectation, clear, reset, retrieveRecordedRequests;
      rewrite Hpass by assumption; rewrite Hst; reflexivity.
Qed.

(** C8.  [clear] issues one PUT to /mockserver/clear whose body is the
    serialization of the empty object when no matcher is given, and of
    [{httpRequest: m}] for a matcher [m]; the matcher [{path: "/test"}]
    gives [{httpRequest: {path: "/test"}}]. *)
Theorem clear_request_body :
  forall this log,
    snd (clear_ this None log)
    = (log ++ [{| call_url := baseUrl this ++ "/mockserver/clear";
                  call_init :=
                    {| init_method := "PUT";
                       init_headers := [("Content-Type", "application/json")];
                       init_body := JSON_stringify (JObj []) |} |}])%list
    /\ (forall m,
         snd (clear_ this (Some m) log)
         = (log ++ [{| call_url := baseUrl this ++ "/mockserver/clear";
                       call_init :=
                         {| init_method := "PUT";
                            init_headers := [("Content-Type", "application/json")];
                            init_body :=
                              JSON_stringify
                                (JObj [("httpRequest", RequestMatcher_js m)]) |} |}])%list)
    /\ RequestMatcher_js path_test = JObj [("path", JStr "/test")].
Proof.
  intros this log.
  assert (Hlog : forall m,
             snd (clear_ this m log)
             = (log ++ [call_ this "/mockserver/clear" "PUT" (matcher_body m) None])%list).
  { intros m. unfold clear, bind.
    rewrite request_settles.
    destruct (settle _ _ _); reflexivity. }
  split; [apply Hlog |]. split; [intros m; apply Hlog | reflexivity].
Qed.

(** C7.  [retrieveRecordedRequests] issues one PUT whose URL carries
    the query [type=REQUESTS], whatever the matcher; and when the response
    has a success status and a body that parses to a JSON array, it
    resolves to the elements of that array, unchanged (to the empty list
    for the array without elements). *)
Theorem retrieve_query_hint_and_array :
  forall this m log,
    snd (retrieve_ this m log)
    = (log ++ [{| call_url := baseUrl this ++ "/mockserver/retrieve?type=REQUESTS";
                  call_init :=
                    {| init_method := "PUT";
                       init_headers := [("Content-Type", "application/json")];
                       init_body := JSON_stringify (matcher_body m) |} |}])%list
    /\ (forall r t items,
           net log (call_ this "/mockserver/retrieve" "PUT" (matcher_body m)
                      (Some [("type", "REQUESTS")]))
           = FetchResponds r ->
           ok r = true ->
           body r = TextOk t ->
           t <> "" ->
           JSON_parse t = Some (JArr items) ->
           fst (retrieve_ this m log) = Resolved items).
Proof.
  intros this m log. split.
  - unfold retrieveRecordedRequests, bind. rewrite request_settles.
    replace (call_ this "/mockserver/retrieve" "PUT" (matcher_body m)
               (Some [("type", "REQUESTS")]))
      with {| call_url := baseUrl this ++ "/mockserver/retrieve?type=REQUESTS";
              call_init :=
                {| init_method := "PUT";
                   init_headers := [("Content-Type", "application/json")];
                   init_body := JSON_stringify (matcher_body m) |} |}.
    + destruct (settle _ _ _) as [v | e]; [| reflexivity].
      destruct (as_array v); reflexivity.
    + unfold request_call. rewrite append_assoc. reflexivity.
  - intros r t items Hnet Hok Hbody Hne Hparse.
    unfold retrieveRecordedRequests, bind. rewrite request_settles, Hnet.
    unfold settle. rewrite Hok, Hbody.
    apply String.eqb_neq in Hne. rewrite Hne, Hparse. reflexivity.
Qed.

(** C10.  Whenever the result of the underlying request is not an array,
    [retrieveRecordedRequests] resolves to the empty list.  So on every
    success status with a readable body it resolves to a list: the empty
    one for an empty body (the empty-object result), for a body that does
    not parse (the raw text) and for a body that parses to an object. *)
Theorem retrieve_non_array_is_empty :
  forall this m log,
    (forall v log',
        request_ this "/mockserver/retrieve" "PUT" (matcher_body m)
          (Some [("type", "REQUESTS")]) log = (Resolved v, log') ->
        as_array v = None ->
        retrieve_ this m log = (Resolved [], log'))
    /\ (forall r t,
           net log (call_ this "/mockserver/retrieve" "PUT" (matcher_body m)
                      (Some [("type", "REQUESTS")]))
           = FetchResponds r ->
           ok r = true ->
           body r = TextOk t ->
           (exists items, fst (retrieve_ this m log) = Resolved items)
           /\ (t = "" -> fst (retrieve_ this m log) = Resolved [])
           /\ (JSON_parse t = None -> fst (retrieve_ this m log) = Resolved [])
           /\ (forall props, JSON_parse t = Some (JObj props) ->
               fst (retrieve_ this m log) = Resolved [])).
Proof.
  intros this m log. split.
  - intros v log' Hreq Harr.
    unfold retrieveRecordedRequests. erewrite bind_resolved by exact Hreq.
    rewrite Harr. reflexivity.
  - intros r t Hnet Hok Hbody.
    unfold retrieveRecordedRequests, bind. rewrite request_settles, Hnet.
    unfold settle. rewrite Hok, Hbody.
    destruct (String.eqb_spec t "") as [-> | Hne].
    + cbn. repeat split; eauto.
    + repeat split.
      * destruct (JSON_parse t) as [v |]; cbn; [destruct (as_array v) |]; cbn; eauto.
      * intros ->. contradiction.
      * intros ->. reflexivity.
      * intros props ->. reflexivity.
Qed.

(** C3.  [getStatus] turns a probe that fails with CONNECTION_FAILED or
    CONNECTION_TIMEOUT into [{host, port, reachable: false}] and does not
    raise; it rethrows every other failure as it is; and when the probe
    succeeds it resolves to [{host, port, reachable: true, version}],
    [version] being the [version] property of the response value, which
    for a body that parses to an object is that object's field. *)
Theorem getStatus_reachability :
  forall this log,
    (forall te log',
        request_ this "/mockserver/status" "PUT" (JObj []) None log
        = (Rejected (ThrowTool te), log') ->
        code te = CONNECTION_FAILED \/ code te = CONNECTION_TIMEOUT ->
        getStatus_ this log
        = (Resolved {| host := fst (status_host_port this);
                       port := snd (status_host_port this);
                       reachable := false;
                       version := None |}, log'))
    /\ (forall e log',
           request_ this "/mockserver/status" "PUT" (JObj []) None log
           = (Rejected e, log') ->
           (forall te, e = ThrowTool te ->
                       code te <> CONNECTION_FAILED /\ code te <> CONNECTION_TIMEOUT) ->
           getStatus_ this log = (Rejected e, log'))
    /\ (forall v log',
           request_ this "/mockserver/status" "PUT" (JObj []) None log
           = (Resolved v, log') ->
           getStatus_ this log
           = (Resolved {| host := fst (status_host_port this);
                          port := snd (status_host_port this);
                          reachable := true;
                          version := version_of v |}, log'))
    /\ (forall r t props,
           net log (call_ this "/mockserver/status" "PUT" (JObj []) None)
           = FetchResponds r ->
           ok r = true ->
           body r = TextOk t ->
           t <> "" ->
           JSON_parse t = Some (JObj props) ->
           fst (getStatus_ this log)
           = Resolved {| host := fst (status_host_port this);
                         port := snd (status_host_port this);
                         reachable := true;
                         version := get_prop "version" props |}).
Proof.
  intros this log.
  unfold getStatus. destruct (status_host_port this) as [h p]. cbn [fst snd].
  unfold try_catch, bind.
  split; [| split; [| split]].
  - intros te log' -> [Hc | Hc]; rewrite Hc; reflexivity.
  - intros e log' -> Hkind.
    destruct e as [te | name msg | shown]; try reflexivity.
    destruct (Hkind te eq_refl) as [H1 H2].
    destruct (code te); try reflexivity; contradiction.
  - intros v log' ->. reflexivity.
  - intros r t props Hnet Hok Hbody Hne Hparse.
    rewrite request_settles, Hnet. unfold settle. rewrite Hok, Hbody.
    apply String.eqb_neq in Hne. rewrite Hne, Hparse. reflexivity.
Qed.

End OperationFacts.

(* ================================================================= *)
(** ** The host and port reported by getStatus *)

(** C9.  For the host "[::1]" and the port 1080 the base URL is
    "http://[::1]:1080", and [getStatus] reports the host "[" and the port
    NaN, whether the server is reachable or not: the split on ":" cuts
    inside the host.  (For a host without a colon the values are read back
    exactly, see [status_host_port_roundtrip].) *)
Theorem getStatus_host_with_colon :
  baseUrl ipv6_client = "http://[::1]:1080"
  /\ status_host_port ipv6_client = ("[", Js.NaN)
  /\ fst (getStatus (responding 200 "") sample_parse sample_stringify ipv6_client [])
     = Resolved {| host := "["; port := Js.NaN; reachable := true; version := None |}
  /\ fst (getStatus refused sample_parse sample_stringify ipv6_client [])
     = Resolved {| host := "["; port := Js.NaN; reachable := false; version := None |}
  /\ ~ (forall h p, 1 <= p <= 65535 ->
         status_host_port
           (constructor {| cfg_host := h; cfg_port := p; cfg_timeout := None |})
         = (h, Js.Num p)).
Proof.
  repeat (split; [reflexivity |]).
  intros Hall. specialize (Hall "[::1]" 1080 ltac:(lia)). discriminate Hall.
Qed.

(* ================================================================= *)
(** ** Closed instances *)

Lemma verify_catches_mismatch_witness :
  fst (verify (responding 406 "Request not matched") sample_parse sample_stringify
         sample_client path_test None [])
  = Resolved {| success := false; matchedCount := 0;
                vr_message := Some "Verification failed: Request not matched" |}
  /\ fst (verify refused sample_parse sample_stringify sample_client path_test None [])
     = Rejected (ThrowTool
         (mkToolError CONNECTION_FAILED
            "Cannot connect to MockServer at http://localhost:1080"
            (Some [("originalError", JStr "fetch failed: ECONNREFUSED")]))).
Proof.
  split.
  - destruct (verify_catches_mismatch (responding 406 "Request not matched")
                sample_parse sample_stringify sample_client path_test None [])
      as [Hcaught _].
    destruct (Hcaught (TextOk "Request not matched") eq_refl) as [Heq _].
    rewrite Heq. reflexivity.
  - destruct (verify_catches_mismatch refused
                sample_parse sample_stringify sample_client path_test None [])
      as [_ Hpass].
    erewrite Hpass.
    + reflexivity.
    + reflexivity.
    + intros te [= <-]. discriminate.
Defined.

Lemma verify_success_count_witness :
  fst (verify (responding 202 "") sample_parse sample_stringify sample_client path_test
         (Some {| atLeast := None; atMost := None; exactly := Some 3 |}) [])
  = Resolved {| success := true; matchedCount := 3; vr_message := None |}
  /\ fst (verify (responding 202 "") sample_parse sample_stringify sample_client path_test
            None [])
     = Resolved {| success := true; matchedCount := 1; vr_message := None |}.
Proof.
  split.
  - destruct (verify_success_count (responding 202 "") sample_parse sample_stringify
                sample_client path_test
                (Some {| atLeast := None; atMost := None; exactly := Some 3 |}) [])
      as [_ Hstatus].
    rewrite (Hstatus {| status := 202; body := TextOk "" |} "" eq_refl eq_refl eq_refl).
    reflexivity.
  - destruct (verify_success_count (responding 202 "") sample_parse sample_stringify
                sample_client path_test None [])
      as [Hresolved _].
    erewrite Hresolved.
    + reflexivity.
    + reflexivity.
Defined.

(** C2, as stated, fails: the CONNECTION_FAILED failure raised for a refused
    connection has the details [{originalError: ...}], and nothing in them
    mentions the base URL (which is in the message). *)
Lemma connection_failed_details_counterexample :
  exists te,
    fst (request refused sample_parse sample_stringify sample_client
           "/mockserver/reset" "PUT" (JObj []) None [])
    = Rejected (ThrowTool te)
    /\ code te = CONNECTION_FAILED
    /\ baseUrl sample_client = "http://localhost:1080"
    /\ details te = Some [("originalError", JStr "fetch failed: ECONNREFUSED")]
    /\ details_mention (baseUrl sample_client) te = false
    /\ details_mention "localhost" te = false
    /\ Js.includes (baseUrl sample_client) (message te) = true.
Proof.
  eexists. split; [reflexivity |]. repeat split.
Qed.

Lemma request_classifies_rejection_witness :
  fst (request refused sample_parse sample_stringify sample_client
         "/mockserver/reset" "PUT" (JObj []) None [])
  = Rejected (ThrowTool
      (mkToolError CONNECTION_FAILED
         "Cannot connect to MockServer at http://localhost:1080"
         (Some [("originalError", JStr "fetch failed: ECONNREFUSED")])))
  /\ fst (request (answering (FetchRejects (ThrowError "AbortError" "This operation was aborted")))
            sample_parse sample_stringify sample_client
            "/mockserver/reset" "PUT" (JObj []) None [])
     = Rejected (ThrowTool
         (mkToolError CONNECTION_TIMEOUT
            "Connection to MockServer timed out after 5000ms"
            (Some [("host", JStr "http://localhost:1080")]))).
Proof.
  split.
  - destruct (request_classifies_rejection refused sample_parse sample_stringify
                sample_client "/mockserver/reset" "PUT" (JObj []) None []
                (ThrowError "TypeError" "fetch failed: ECONNREFUSED") eq_refl)
      as (_ & _ & _ & Hfailed & _).
    destruct (Hfailed "TypeError" "fetch failed: ECONNREFUSED" eq_refl) as [Heq _].
    + discriminate.
    + reflexivity.
    + rewrite Heq. reflexivity.
  - destruct (request_classifies_rejection
                (answering (FetchRejects (ThrowError "AbortError" "This operation was aborted")))
                sample_parse sample_stringify
                sample_client "/mockserver/reset" "PUT" (JObj []) None []
                (ThrowError "AbortError" "This operation was aborted") eq_refl)
      as (_ & _ & Htimeout & _).
    rewrite (Htimeout "This operation was aborted" eq_refl). reflexivity.
Defined.

Lemma getStatus_reachability_witness :
  fst (getStatus refused sample_parse sample_stringify sample_client [])
  = Resolved {| host := "localhost"; port := Js.Num 1080; reachable := false;
                version := None |}
  /\ fst (getStatus (responding 500 "Internal error") sample_parse sample_stringify
            sample_client [])
     = Rejected (ThrowTool
         (mkToolError MOCKSERVER_ERROR "MockServer error: Internal error"
            (Some [("statusCode", JNum 500)])))
  /\ fst (getStatus (responding 200 (sample_stringify (JObj [("version", JStr "5.15.0")])))
            sample_parse sample_stringify sample_client [])
     = Resolved {| host := "localhost"; port := Js.Num 1080; reachable := true;
                   version := Some (JStr "5.15.0") |}.
Proof.
  split; [| split].
  - destruct (getStatus_reachability refused sample_parse sample_stringify sample_client [])
      as (Hdown & _).
    erewrite Hdown.
    + reflexivity.
    + reflexivity.
    + left. reflexivity.
  - destruct (getStatus_reachability (responding 500 "Internal error")
                sample_parse sample_stringify sample_client [])
      as (_ & Hpass & _).
    erewrite Hpass.
    + reflexivity.
    + reflexivity.
    + intros te [= <-]. split; discriminate.
  - destruct (getStatus_reachability
                (responding 200 (sample_stringify (JObj [("version", JStr "5.15.0")])))
                sample_parse sample_stringify sample_client [])
      as (_ & _ & _ & Hbody).
    rewrite (Hbody {| status := 200;
                      body := TextOk (sample_stringify (JObj [("version", JStr "5.15.0")])) |}
                   (sample_stringify (JObj [("version", JStr "5.15.0")]))
                   [("version", JStr "5.15.0")] eq_refl eq_refl eq_refl).
    + reflexivity.
    + vm_compute. discriminate.
    + reflexivity.
Defined.

(** C5, as stated, fails: a 406 answer to createExpectation is not a
    success status, and the failure raised is VERIFICATION_FAILED, not
    MOCKSERVER_ERROR. *)
Lemma createExpectation_406_counterexample :
  exists te,
    ok {| status := 406; body := TextOk "Not Acceptable" |} = false
    /\ fst (createExpectation (responding 406 "Not Acceptable") sample_parse
              sample_stringify sample_client sample_expectation [])
       = Rejected (ThrowTool te)
    /\ code te = VERIFICATION_FAILED
    /\ code te <> MOCKSERVER_ERROR.
Proof.
  eexists. split; [reflexivity |]. split; [reflexivity |].
  split; [reflexivity | discriminate].
Qed.

Lemma operations_raise_remote_error_witness :
  fst (createExpectation (responding 400 "Invalid expectation") sample_parse
         sample_stringify sample_client sample_expectation [])
  = Rejected (ThrowTool
      (mkToolError MOCKSERVER_ERROR "MockServer error: Invalid expectation"
         (Some [("statusCode", JNum 400)])))
  /\ fst (reset (responding 406 "Not Acceptable") sample_parse sample_stringify
            sample_client [])
     = Rejected (ThrowTool
         (mkToolError VERIFICATION_FAILED "Verification failed: Not Acceptable"
            (Some [("statusCode", JNum 406)]))).
Proof.
  split.
  - destruct (operations_raise_remote_error (responding 400 "Invalid expectation")
                sample_parse sample_stringify sample_client []
                {| status := 400; body := TextOk "Invalid expectation" |} eq_refl)
      as [Hother _].
    destruct Hother as (Hcreate & _); [discriminate |].
    rewrite (Hcreate sample_expectation eq_refl). reflexivity.
  - destruct (operations_raise_remote_error (responding 406 "Not Acceptable")
                sample_parse sample_stringify sample_client []
                {| status := 406; body := TextOk "Not Acceptable" |} eq_refl)
      as [_ Hmismatch].
    destruct Hmismatch as (_ & _ & Hreset & _); [reflexivity |].
    rewrite (Hreset eq_refl). reflexivity.
Defined.

Lemma request_success_value_witness :
  fst (request (responding 200 "") sample_parse sample_stringify sample_client
         "/mockserver/reset" "PUT" (JObj []) None [])
  = Resolved (JObj [])
  /\ fst (request (responding 200 "[]") sample_parse sample_stringify sample_client
            "/mockserver/reset" "PUT" (JObj []) None [])
     = Resolved (JArr [])
  /\ fst (request (responding 200 "OK") sample_parse sample_stringify sample_client
            "/mockserver/reset" "PUT" (JObj []) None [])
     = Resolved (JStr "OK").
Proof.
  split; [| split].
  - destruct (request_success_value (responding 200 "") sample_parse sample_stringify
                sample_client "/mockserver/reset" "PUT" (JObj []) None []
                {| status := 200; body := TextOk "" |} "" eq_refl eq_refl eq_refl)
      as (Hempty & _).
    rewrite (Hempty eq_refl). reflexivity.
  - destruct (request_success_value (responding 200 "[]") sample_parse sample_stringify
                sample_client "/mockserver/reset" "PUT" (JObj []) None []
                {| status := 200; body := TextOk "[]" |} "[]" eq_refl eq_refl eq_refl)
      as (_ & Hparsed & _).
    rewrite (Hparsed (JArr [])).
    + reflexivity.
    + discriminate.
    + reflexivity.
  - destruct (request_success_value (responding 200 "OK") sample_parse sample_stringify
                sample_client "/mockserver/reset" "PUT" (JObj []) None []
                {| status := 200; body := TextOk "OK" |} "OK" eq_refl eq_refl eq_refl)
      as (_ & _ & Hraw).
    rewrite Hraw.
    + reflexivity.
    + discriminate.
    + reflexivity.
Defined.

Lemma retrieve_query_hint_and_array_witness :
  fst (retrieveRecordedRequests (responding 200 "[]") sample_parse sample_stringify
         sample_client None [])
  = Resolved []
  /\ fst (retrieveRecordedRequests
            (responding 200 (sample_stringify (JArr sample_recorded)))
            sample_parse sample_stringify sample_client None [])
     = Resolved sample_recorded.
Proof.
  split.
  - destruct (retrieve_query_hint_and_array (responding 200 "[]") sample_parse
                sample_stringify sample_client None [])
      as [_ Harray].
    apply (Harray {| status := 200; body := TextOk "[]" |} "[]" []);
      reflexivity || discriminate.
  - destruct (retrieve_query_hint_and_array
                (responding 200 (sample_stringify (JArr sample_recorded)))
                sample_parse sample_stringify sample_client None [])
      as [_ Harray].
    apply (Harray {| status := 200;
                     body := TextOk (sample_stringify (JArr sample_recorded)) |}
                  (sample_stringify (JArr sample_recorded)) sample_recorded);
      reflexivity || discriminate.
Defined.

Lemma retrieve_non_array_is_empty_witness :
  fst (retrieveRecordedRequests (responding 200 "") sample_parse sample_stringify
         sample_client None [])
  = Resolved []
  /\ fst (retrieveRecordedRequests (responding 200 "OK") sample_parse sample_stringify
            sample_client None [])
     = Resolved []
  /\ fst (retrieveRecordedRequests (responding 200 "{}") sample_parse sample_stringify
            sample_client (Some path_test) [])
     = Resolved [].
Proof.
  split; [| split].
  - destruct (retrieve_non_array_is_empty (responding 200 "") sample_parse
                sample_stringify sample_client None [])
      as [_ Hbody].
    destruct (Hbody {| status := 200; body := TextOk "" |} "" eq_refl eq_refl eq_refl)
      as (_ & Hempty & _).
    apply Hempty. reflexivity.
  - destruct (retrieve_non_array_is_empty (responding 200 "OK") sample_parse
                sample_stringify sample_client None [])
      as [_ Hbody].
    destruct (Hbody {| status := 200; body := TextOk "OK" |} "OK" eq_refl eq_refl eq_refl)
      as (_ & _ & Hraw & _).
    apply Hraw. reflexivity.
  - destruct (retrieve_non_array_is_empty (responding 200 "{}") sample_parse
                sample_stringify sample_client (Some path_test) [])
      as [Hgeneral _].
    erewrite Hgeneral.
    + reflexivity.
    + reflexivity.
    + reflexivity.
Defined.

Example includes_ex : Js.includes "network" "a network error" = true.
Proof. reflexivity. Qed.
Example replace_ex : Js.replace "http://" "" "http://localhost:1080" = "localhost:1080".
Proof. reflexivity. Qed.
Example split_ex : Js.split ":" "a::b" = ["a"; ""; "b"].
Proof. reflexivity. Qed.
Example toString_ex : Js.Number_toString 1080 = "1080" /\ Js.Number_toString (-5) = "-5" /\ Js.Number_toString 0 = "0".
Proof. repeat split; reflexivity. Qed.
Example parseInt_ex : Js.parseInt (Some " 42abc") = Js.Num 42 /\ Js.parseInt (Some "") = Js.NaN /\ Js.parseInt (Some "-7") = Js.Num (-7).
Proof. repeat split; reflexivity. Qed.
Example urlenc_ex : Js.URLSearchParams_toString [("type", "REQUESTS"); ("a b", "c/d")] = "type=REQUESTS&a+b=c%2Fd".
Proof. reflexivity. Qed.

(* ================================================================= *)
(** ** The unit tests of the client, replayed on the model

    [tests/unit/mockserver-client.test.ts], with [fetch] answered as the
    test's mock answers it. *)

Example test_createExpectation_success :
  createExpectation (responding 201 "") sample_parse sample_stringify sample_client
    sample_expectation []
  = (Resolved tt,
     [{| call_url := "http://localhost:1080/mockserver/expectation";
         call_init := {| init_method := "PUT";
                         init_headers := [("Content-Type", "application/json")];
                         init_body := sample_stringify (Expectation_js sample_expectation) |} |}]).
Proof. reflexivity. Qed.

Example test_createExpectation_query_parameters :
  match Expectation_js users_expectation with
  | JObj props =>
      match get_prop "httpRequest" props with
      | Some (JObj req) => get_prop "queryStringParameters" req
      | _ => None
      end
  | _ => None
  end
  = Some (JObj [("page", JArr [JStr "1"]); ("limit", JArr [JStr "10"]);
                ("sort", JArr [JStr "name"; JStr "asc"])]).
Proof. reflexivity. Qed.

Example test_createExpectation_error :
  exists te,
    fst (createExpectation (responding 400 "Invalid expectation") sample_parse
           sample_stringify sample_client sample_expectation [])
    = Rejected (ThrowTool te).
Proof. eexists. reflexivity. Qed.

Example test_verify_passes :
  success
    match fst (verify (responding 202 "") sample_parse sample_stringify sample_client
                 get_test (Some {| atLeast := Some 1; atMost := None; exactly := None |}) [])
    with
    | Resolved result => result
    | Rejected _ => {| success := false; matchedCount := 0; vr_message := None |}
    end
  = true.
Proof. reflexivity. Qed.

Example test_verify_fails :
  fst (verify (responding 406 "Request not matched") sample_parse sample_stringify
         sample_client get_test None [])
  = Resolved {| success := false; matchedCount := 0;
                vr_message := Some "Verification failed: Request not matched" |}.
Proof. reflexivity. Qed.

Example test_clear_all :
  fst (clear (responding 200 "") sample_parse sample_stringify sample_client None [])
  = Resolved tt
  /\ map call_url
       (snd (clear (responding 200 "") sample_parse sample_stringify sample_client None []))
     = ["http://localhost:1080/mockserver/clear"].
Proof. split; reflexivity. Qed.

Example test_reset :
  fst (reset (responding 200 "") sample_parse sample_stringify sample_client [])
  = Resolved tt
  /\ map call_url
       (snd (reset (responding 200 "") sample_parse sample_stringify sample_client []))
     = ["http://localhost:1080/mockserver/reset"].
Proof. split; reflexivity. Qed.

Example test_retrieve_recorded :
  fst (retrieveRecordedRequests
         (responding 200 (sample_stringify (JArr sample_recorded)))
         sample_parse sample_stringify sample_client None [])
  = Resolved sample_recorded.
Proof. reflexivity. Qed.

Example test_retrieve_none_recorded :
  fst (retrieveRecordedRequests (responding 200 "[]") sample_parse sample_stringify
         sample_client None [])
  = Resolved [].
Proof. reflexivity. Qed.

Example test_getStatus_reachable :
  fst (getStatus (responding 200 (sample_stringify (JObj [("version", JStr "5.15.0")])))
         sample_parse sample_stringify sample_client [])
  = Resolved {| host := "localhost"; port := Js.Num 1080; reachable := true;
                version := Some (JStr "5.15.0") |}.
Proof. reflexivity. Qed.

Example test_getStatus_unreachable :
  fst (getStatus refused sample_parse sample_stringify sample_client [])
  = Resolved {| host := "localhost"; port := Js.Num 1080; reachable := false;
                version := None |}.
Proof. reflexivity. Qed.

Example test_connection_failed :
  exists te,
    fst (createExpectation refused sample_parse sample_stringify sample_client
           sample_expectation [])
    = Rejected (ThrowTool te)
    /\ code te = CONNECTION_FAILED.
Proof. eexists. split; reflexivity. Qed.

Example test_connection_timeout :
  exists te,
    fst (createExpectation aborted sample_parse sample_stringify sample_client
           sample_expectation [])
    = Rejected (ThrowTool te)
    /\ code te = CONNECTION_TIMEOUT.
Proof. eexists. split; reflexivity. Qed.

(* ================================================================= *)
(** ** Further facts about the client *)

Section ClientExchange.

Variable net : Network.
Variable JSON_parse : string -> option JsValue.
Variable JSON_stringify : JsValue -> string.

Local Notation "'request_'" := (request net JSON_parse JSON_stringify).
Local Notation "'call_'" := (request_call JSON_stringify).
Local Notation "'createExpectation_'" := (createExpectation net JSON_parse JSON_stringify).
Local Notation "'verify_'" := (verify net JSON_parse JSON_stringify).
Local Notation "'clear_'" := (clear net JSON_parse JSON_stringify).
Local Notation "'reset_'" := (reset net JSON_parse JSON_stringify).
Local Notation "'retrieve_'" := (retrieveRecordedRequests net JSON_parse JSON_stringify).
Local Notation "'getStatus_'" := (getStatus net JSON_parse JSON_stringify).

Lemma settle_typed this o e :
  settle JSON_parse this o = Rejected e -> exists te, e = ThrowTool te.
Proof.
  unfold settle. destruct o as [e0 | r].
  - intros [= <-]. apply classify_typed.
  - destruct (ok r).
    + destruct (body r) as [t | e0]; [discriminate |].
      intros [= <-]. apply classify_typed.
    + intros [= <-]. eauto.
Qed.

(** The shape of an operation that awaits [request] once and then only
    computes: the log is the one of [request]. *)
Lemma bind_pure_log {A B : Type} (m : Async A) (f : A -> B) log :
  snd (bind m (fun a => ret (f a)) log) = snd (m log).
Proof. unfold bind, ret. destruct (m log) as [[a | e] l]; reflexivity. Qed.

(** Each of the six operations performs exactly one exchange, whatever its
    outcome: one PUT of the serialized payload to the operation's path, and
    no second call after a failure. *)
Theorem operations_issue_one_call :
  forall this log,
    (forall ex,
        snd (createExpectation_ this ex log)
        = (log ++ [call_ this "/mockserver/expectation" "PUT" (Expectation_js ex) None])%list)
    /\ (forall req times,
        snd (verify_ this req times log)
        = (log ++ [call_ this "/mockserver/verify" "PUT" (verify_body req times) None])%list)
    /\ (forall m,
        snd (clear_ this m log)
        = (log ++ [call_ this "/mockserver/clear" "PUT" (matcher_body m) None])%list)
    /\ snd (reset_ this log)
       = (log ++ [call_ this "/mockserver/reset" "PUT" (JObj []) None])%list
    /\ (forall m,
        snd (retrieve_ this m log)
        = (log ++ [call_ this "/mockserver/retrieve" "PUT" (matcher_body m)
                     (Some [("type", "REQUESTS")])])%list)
    /\ snd (getStatus_ this log)
       = (log ++ [call_ this "/mockserver/status" "PUT" (JObj []) None])%list.
Proof.
  intros this log.
  split; [| split; [| split; [| split; [| split]]]].
  - intros ex. unfold createExpectation. rewrite (bind_pure_log _ (fun _ => tt)).
    rewrite request_settles. reflexivity.
  - intros req times. unfold verify, try_catch, bind. rewrite request_settles.
    destruct (settle _ _ _) as [v | [te | name msg | shown]]; try reflexivity.
    cbv beta iota. destruct (ErrorCode_eqb (code te) VERIFICATION_FAILED); reflexivity.
  - intros m. unfold clear. rewrite (bind_pure_log _ (fun _ => tt)).
    rewrite request_settles. reflexivity.
  - unfold reset. rewrite (bind_pure_log _ (fun _ => tt)).
    rewrite request_settles. reflexivity.
  - intros m. unfold retrieveRecordedRequests, bind. rewrite request_settles.
    destruct (settle _ _ _) as [v | e]; [| reflexivity].
    destruct (as_array v); reflexivity.
  - unfold getStatus. destruct (status_host_port this) as [h p].
    unfold try_catch, bind. rewrite request_settles.
    destruct (settle _ _ _) as [v | [te | name msg | shown]]; try reflexivity.
    cbv beta iota.
    destruct (ErrorCode_eqb (code te) CONNECTION_FAILED
              || ErrorCode_eqb (code te) CONNECTION_TIMEOUT); reflexivity.
Qed.

(** No operation lets an untyped error through: whatever an operation
    rejects with is a [ToolError]. *)
Theorem operations_reject_with_ToolError :
  forall this log e log',
    ((exists ex, createExpectation net JSON_parse JSON_stringify this ex log = (Rejected e, log'))
     \/ (exists req times, verify net JSON_parse JSON_stringify this req times log = (Rejected e, log'))
     \/ (exists m, clear net JSON_parse JSON_stringify this m log = (Rejected e, log'))
     \/ reset net JSON_parse JSON_stringify this log = (Rejected e, log')
     \/ (exists m, retrieveRecordedRequests net JSON_parse JSON_stringify this m log = (Rejected e, log'))
     \/ getStatus net JSON_parse JSON_stringify this log = (Rejected e, log')) ->
    exists te, e = ThrowTool te.
Proof.
  intros this log e log' H.
  assert (Hpass : forall (B : Type) path payload q (k : JsValue -> B),
             bind (request_ this path "PUT" payload q) (fun v => ret (k v)) log
             = (Rejected e, log') ->
             exists te, e = ThrowTool te).
  { intros B path payload q k. unfold bind, ret. rewrite request_settles.
    destruct (settle _ _ _) as [v | e0] eqn:Hs; [discriminate |].
    intros [= <- _]. eapply settle_typed; exact Hs. }
  destruct H as [[ex H] | [[req [times H]] | [[m H] | [H | [[m H] | H]]]]].
  - eapply (Hpass unit). exact H.
  - revert H. unfold verify, try_catch, bind. rewrite request_settles.
    destruct (settle _ _ _) as [v | e0] eqn:Hs; [discriminate |].
    destruct (settle_typed _ _ _ Hs) as [te ->]. cbv beta iota.
    destruct (ErrorCode_eqb (code te) VERIFICATION_FAILED); [discriminate |].
    intros [= <- _]. eauto.
  - eapply (Hpass unit). exact H.
  - eapply (Hpass unit). exact H.
  - revert H. unfold retrieveRecordedRequests, bind. rewrite request_settles.
    destruct (settle _ _ _) as [v | e0] eqn:Hs.
    + destruct (as_array v); discriminate.
    + intros [= <- _]. eapply settle_typed; exact Hs.
  - revert H. unfold getStatus. destruct (status_host_port this) as [h p].
    unfold try_catch, bind. rewrite request_settles.
    destruct (settle _ _ _) as [v | e0] eqn:Hs; [discriminate |].
    destruct (settle_typed _ _ _ Hs) as [te ->]. cbv beta iota.
    destruct (ErrorCode_eqb (code te) CONNECTION_FAILED
              || ErrorCode_eqb (code te) CONNECTION_TIMEOUT); [discriminate |].
    intros [= <- _]. eauto.
Qed.

End ClientExchange.

Section ClientOutcomes.

Variable net : Network.
Variable JSON_parse : string -> option JsValue.
Variable JSON_stringify : JsValue -> string.

Local Notation "'request_'" := (request net JSON_parse JSON_stringify).
Local Notation "'call_'" := (request_call JSON_stringify).
Local Notation "'verify_'" := (verify net JSON_parse JSON_stringify).
Local Notation "'getStatus_'" := (getStatus net JSON_parse JSON_stringify).

(** What a result of [verify] tells about the exchange.  A negative result
    always has matched count 0 and carries the message of a
    VERIFICATION_FAILED failure of the request; a positive result has no
    message and comes from a request that resolved. *)
Theorem verify_result_invariant :
  forall this req times log vr log',
    verify_ this req times log = (Resolved vr, log') ->
    (success vr = false ->
       matchedCount vr = 0
       /\ exists te,
            request_ this "/mockserver/verify" "PUT" (verify_body req times) None log
            = (Rejected (ThrowTool te), log')
            /\ code te = VERIFICATION_FAILED
            /\ vr_message vr = Some (message te))
    /\ (success vr = true ->
          vr_message vr = None
          /\ exists v,
               request_ this "/mockserver/verify" "PUT" (verify_body req times) None log
               = (Resolved v, log')).
Proof.
  intros this req times log vr log'.
  unfold verify, try_catch, bind.
  destruct (request_ this "/mockserver/verify" "PUT" (verify_body req times) None log)
    as [[v | [te | name msg | shown]] l]; unfold ret, throw; try discriminate.
  - intros [= <- <-]. cbn [success vr_message]. split; [discriminate |].
    intros _. split; [reflexivity | eauto].
  - destruct (code te) eqn:Hcode; cbn [ErrorCode_eqb]; try discriminate.
    intros [= <- <-]. cbn [success matchedCount vr_message].
    split; [| discriminate].
    intros _. split; [reflexivity |]. exists te. rewrite Hcode. auto.
Qed.

(** When [fetch] responds, [request] resolves exactly for the statuses 200
    to 299 with a readable body; 199 and 300 are failures already. *)
Theorem request_resolves_iff_success_status :
  forall this path method payload q log r,
    net log (request_call JSON_stringify this path method payload q) = FetchResponds r ->
    ((exists v, fst (request net JSON_parse JSON_stringify this path method payload q log) = Resolved v)
     <-> (200 <= status r <= 299 /\ exists t, body r = TextOk t)).
Proof.
  intros this path method payload q log r Hnet.
  rewrite request_settles, Hnet. cbn [fst]. unfold settle, ok.
  destruct (200 <=? status r) eqn:Hlo; destruct (status r <=? 299) eqn:Hhi;
    cbn [andb];
    try (split; [intros [v Hv]; discriminate Hv
                | intros [[H1 H2] _];
                  first [apply Z.leb_gt in Hlo | apply Z.leb_gt in Hhi]; lia]).
  apply Z.leb_le in Hlo. apply Z.leb_le in Hhi.
  destruct (body r) as [t | e].
  - split; [intros _; split; [lia | eauto] | intros _; eauto].
  - split; [intros [v Hv]; discriminate Hv | intros [_ [t Ht]]; discriminate Ht].
Qed.

(** A body that cannot be read.  On a success status the read failure is
    classified like a failure of [fetch] itself (so a read aborted by the
    timer is a CONNECTION_TIMEOUT); on any other status it is swallowed and
    the failure raised reports the placeholder text. *)
Theorem unreadable_body :
  forall this path method payload q log st e,
    net log (call_ this path method payload q)
    = FetchResponds {| status := st; body := TextFails e |} ->
    (200 <= st <= 299 ->
       (forall net',
           net' log (call_ this path method payload q) = FetchRejects e ->
           request_ this path method payload q log
           = request net' JSON_parse JSON_stringify this path method payload q log)
       /\ (forall msg,
              e = ThrowError "AbortError" msg ->
              exists te,
                fst (request_ this path method payload q log) = Rejected (ThrowTool te)
                /\ code te = CONNECTION_TIMEOUT))
    /\ (~ 200 <= st <= 299 ->
          exists te,
            fst (request_ this path method payload q log) = Rejected (ThrowTool te)
            /\ (code te = if st =? 406 then VERIFICATION_FAILED else MOCKSERVER_ERROR)
            /\ (message te = if st =? 406 then "Verification failed: Unknown error"
                             else "MockServer error: Unknown error")
            /\ details te = Some [("statusCode", JNum st)]).
Proof.
  intros this path method payload q log st e Hnet.
  rewrite !request_settles, Hnet. unfold settle, ok. cbn [status body fst].
  split.
  - intros Hst.
    assert (Hok : (200 <=? st) && (st <=? 299) = true)
      by (apply andb_true_iff; split; apply Z.leb_le; lia).
    rewrite Hok. split.
    + intros net' Hnet'. rewrite request_settles, Hnet'. reflexivity.
    + intros msg ->. eexists. split; reflexivity.
  - intros Hst.
    assert (Hok : (200 <=? st) && (st <=? 299) = false).
    { apply andb_false_iff.
      destruct (Z.leb_spec 200 st); [| now left].
      destruct (Z.leb_spec st 299); [lia | now right]. }
    rewrite Hok. unfold errorText. cbn [body].
    destruct (st =? 406); eexists; repeat split.
Qed.

(** [getStatus] when [fetch] itself fails: an aborted call or a failure
    with a connection signature gives the not-reachable status; any other
    error is raised as UNKNOWN_ERROR. *)
Theorem getStatus_on_transport_failure :
  forall this log name msg,
    net log (call_ this "/mockserver/status" "PUT" (JObj []) None)
    = FetchRejects (ThrowError name msg) ->
    (name = "AbortError" \/ connection_signature msg = true ->
       fst (getStatus_ this log)
       = Resolved {| host := fst (status_host_port this);
                     port := snd (status_host_port this);
                     reachable := false;
                     version := None |})
    /\ (name <> "AbortError" -> connection_signature msg = false ->
          fst (getStatus_ this log)
          = Rejected (ThrowTool
              (mkToolError UNKNOWN_ERROR ("Unexpected error: " ++ msg) None))).
Proof.
  intros this log name msg Hnet.
  unfold getStatus. destruct (status_host_port this) as [h p]. cbn [fst snd].
  unfold try_catch, bind. rewrite request_settles, Hnet. cbn [settle classify].
  split.
  - intros [-> | Hsig]; [reflexivity |].
    destruct (String.eqb name "AbortError"); [reflexivity |].
    rewrite Hsig. reflexivity.
  - intros Hname Hsig. apply String.eqb_neq in Hname.
    rewrite Hname, Hsig. reflexivity.
Qed.

End ClientOutcomes.

(* ================================================================= *)
(** ** Decimal numbers, written and read back *)

Lemma decimal_digits_app fuel : forall n acc,
  Js.decimal_digits fuel n acc = Js.decimal_digits fuel n EmptyString ++ acc.
Proof.
  induction fuel as [| fuel IH]; intros n acc; [reflexivity |].
  cbn [Js.decimal_digits]. destruct (n / 10 =? 0); [reflexivity |].
  rewrite (IH _ (String _ acc)), (IH _ (String _ EmptyString)).
  rewrite append_assoc. reflexivity.
Qed.

Lemma read_digits_stop n junk :
  Js.starts_with_digit junk = false -> Js.read_digits n junk = n.
Proof.
  destruct junk as [| c rest]; [reflexivity |].
  cbn [Js.starts_with_digit Js.read_digits]. intros ->. reflexivity.
Qed.

(** A text that starts with a digit is read without sign or white space. *)
Lemma parseInt_unsigned c rest :
  Js.is_digit c = true ->
  Js.parseInt (Some (String c rest)) = Js.Num (Js.read_digits 0 (String c rest)).
Proof.
  intros Hc. unfold Js.parseInt. cbn [Js.trim_start].
  assert (Hsp : Js.is_space c = false).
  { revert Hc. unfold Js.is_digit, Js.is_space. lia. }
  rewrite Hsp.
  destruct c as [[] [] [] [] [] [] [] []]; try discriminate Hc;
    cbn [Js.starts_with_digit]; rewrite Hc; reflexivity.
Qed.

Lemma decimal_digits_read n junk :
  0 <= n ->
  Js.starts_with_digit junk = false ->
  exists c rest,
    Js.decimal_digits (Js.digits_fuel n) n junk = String c rest
    /\ Js.is_digit c = true
    /\ Js.read_digits 0 (String c rest) = n.
Proof.
  intros Hn Hjunk.
  destruct (decimal_digits_head (Z.to_nat (Z.log2 n)) n junk Hn) as (c & rest & Heq & Hc).
  exists c, rest. fold (Js.digits_fuel n) in Heq. repeat split; [exact Heq | exact Hc |].
  rewrite <- Heq, read_decimal_digits by (split; [exact Hn | apply digits_fuel_enough; exact Hn]).
  apply read_digits_stop. exact Hjunk.
Qed.

(** [parseInt] reads an integer written in decimal back, and ignores what
    follows it as long as that does not start with a digit. *)
Lemma parseInt_decimal p junk :
  Js.starts_with_digit junk = false ->
  Js.parseInt (Some (Js.Number_toString p ++ junk)) = Js.Num p.
Proof.
  intros Hjunk. unfold Js.Number_toString.
  destruct (p <? 0) eqn:Hneg.
  - apply Z.ltb_lt in Hneg.
    cbn [append]. rewrite <- decimal_digits_app.
    destruct (decimal_digits_read (- p) junk ltac:(lia) Hjunk) as (c & rest & Heq & Hc & Hread).
    rewrite Heq. unfold Js.parseInt. cbn [Js.trim_start Js.is_space].
    change (Js.is_space "-") with false. cbv beta iota.
    cbn [Js.starts_with_digit]. rewrite Hc, Hread. f_equal. lia.
  - apply Z.ltb_ge in Hneg. rewrite <- decimal_digits_app.
    destruct (decimal_digits_read p junk Hneg Hjunk) as (c & rest & Heq & Hc & Hread).
    rewrite Heq, parseInt_unsigned by exact Hc. rewrite Hread. reflexivity.
Qed.

Lemma Number_toString_colon_free p : Js.includes ":" (Js.Number_toString p) = false.
Proof.
  unfold Js.Number_toString. destruct (p <? 0) eqn:Hneg.
  - apply Z.ltb_lt in Hneg. apply colon_free_cons. split; [discriminate |].
    apply decimal_digits_colon_free; [lia | reflexivity].
  - apply Z.ltb_ge in Hneg. apply decimal_digits_colon_free; [lia | reflexivity].
Qed.

(* ================================================================= *)
(** ** The host and port of a status, in general *)

Lemma split_head_cons c s :
  c <> ":"%char ->
  hd EmptyString (Js.split ":" (String c s)) = String c (hd EmptyString (Js.split ":" s)).
Proof.
  intros Hc. cbn [Js.split]. apply Ascii.eqb_neq in Hc. rewrite Hc.
  destruct (Js.split ":" s); reflexivity.
Qed.

(** Text after a colon does not change the first piece of a split. *)
Lemma split_head_app h rest :
  hd EmptyString (Js.split ":" (h ++ String ":" rest)) = hd EmptyString (Js.split ":" h).
Proof.
  induction h as [| c h IH]; [reflexivity |].
  cbn [append]. destruct (ascii_dec c ":") as [-> | Hc]; [reflexivity |].
  rewrite !split_head_cons by exact Hc. rewrite IH. reflexivity.
Qed.

Lemma split_head_colon_free s :
  Js.includes ":" (hd EmptyString (Js.split ":" s)) = false.
Proof.
  induction s as [| c s IH]; [reflexivity |].
  destruct (ascii_dec c ":") as [-> | Hc]; [reflexivity |].
  rewrite split_head_cons by exact Hc. apply colon_free_cons. split; assumption.
Qed.

Lemma status_host_is_head this :
  fst (status_host_port this)
  = hd EmptyString (Js.split ":" (Js.replace "http://" "" (baseUrl this))).
Proof.
  unfold status_host_port.
  destruct (Js.split ":" _) as [| a [| b l]]; reflexivity.
Qed.

(** The host [getStatus] reports is the configured host up to its first
    colon: it is the configured host exactly when that has no colon. *)
Theorem status_host_is_host_before_colon :
  forall h p t,
    fst (status_host_port (constructor {| cfg_host := h; cfg_port := p; cfg_timeout := t |}))
    = hd EmptyString (Js.split ":" h)
    /\ (fst (status_host_port
               (constructor {| cfg_host := h; cfg_port := p; cfg_timeout := t |})) = h
        <-> Js.includes ":" h = false).
Proof.
  intros h p t.
  assert (Hhead :
            fst (status_host_port
                   (constructor {| cfg_host := h; cfg_port := p; cfg_timeout := t |}))
            = hd EmptyString (Js.split ":" h)).
  { rewrite status_host_is_head. unfold constructor. cbn [baseUrl cfg_host cfg_port].
    rewrite replace_scheme.
    change (":" ++ Js.Number_toString p) with (String ":" (Js.Number_toString p)).
    apply split_head_app. }
  split; [exact Hhead |]. rewrite Hhead. split.
  - intros Heq. rewrite <- Heq. apply split_head_colon_free.
  - intros Hfree. rewrite split_colon_free by exact Hfree. reflexivity.
Qed.

Lemma append_empty (s : string) : s ++ EmptyString = s.
Proof. induction s; cbn; congruence. Qed.

(** Host and port are read back for every host without a colon and every
    integer port. *)
Lemma status_host_port_any_port h p t :
  Js.includes ":" h = false ->
  status_host_port (constructor {| cfg_host := h; cfg_port := p; cfg_timeout := t |})
  = (h, Js.Num p).
Proof.
  intros Hfree. unfold status_host_port, constructor. cbn [baseUrl cfg_host cfg_port].
  rewrite replace_scheme.
  change (":" ++ Js.Number_toString p) with (String ":" (Js.Number_toString p)).
  rewrite split_at_first_colon by exact Hfree.
  rewrite split_colon_free by apply Number_toString_colon_free.
  rewrite <- (parseInt_decimal p EmptyString eq_refl), append_empty. reflexivity.
Qed.

Section StatusConfiguration.

Variable net : Network.
Variable JSON_parse : string -> option JsValue.
Variable JSON_stringify : JsValue -> string.

(** For a host without a colon and an integer port, a status that
    [getStatus] resolves to, reachable or not, carries the host and the port
    the client was constructed with. *)
Theorem getStatus_reports_configuration :
  forall h p t log st log',
    Js.includes ":" h = false ->
    plain_decimal p ->
    getStatus net JSON_parse JSON_stringify
      (constructor {| cfg_host := h; cfg_port := p; cfg_timeout := t |}) log
    = (Resolved st, log') ->
    host st = h /\ port st = Js.Num p.
Proof.
  intros h p t log st log' Hfree _.
  unfold getStatus. rewrite status_host_port_any_port by exact Hfree.
  unfold try_catch, bind.
  destruct (request _ _ _ _ _ _ _ _ _) as [[v | [te | name msg | shown]] l];
    unfold ret, throw; try discriminate.
  - intros [= <- _]. split; reflexivity.
  - destruct (ErrorCode_eqb (code te) CONNECTION_FAILED
              || ErrorCode_eqb (code te) CONNECTION_TIMEOUT); [| discriminate].
    intros [= <- _]. split; reflexivity.
Qed.

End StatusConfiguration.

(* ================================================================= *)
(** ** The configuration read from the environment *)

Lemma Number_toString_nonempty p junk :
  String.eqb (Js.Number_toString p ++ junk) "" = false.
Proof.
  unfold Js.Number_toString. destruct (p <? 0) eqn:Hneg; [reflexivity |].
  apply Z.ltb_ge in Hneg.
  destruct (decimal_digits_head (Z.to_nat (Z.log2 p)) p EmptyString Hneg)
    as (c & rest & Heq & _).
  fold (Js.digits_fuel p) in Heq. rewrite Heq. reflexivity.
Qed.


(** Whatever the environment holds, the configuration has a port between 1
    and 65535 and a host that is not empty. *)
Theorem getConfig_wellformed :
  forall env,
    1 <= cfg_port (fst (getConfig env)) <= 65535
    /\ cfg_host (fst (getConfig env)) <> EmptyString.
Proof.
  intros env. unfold getConfig.
  assert (Hhost : match env "MOCKSERVER_HOST" with
                  | Some h => if String.eqb h "" then DEFAULT_HOST else h
                  | None => DEFAULT_HOST
                  end <> EmptyString).
  { destruct (env "MOCKSERVER_HOST") as [h |]; [| discriminate].
    destruct (String.eqb_spec h ""); [discriminate | assumption]. }
  destruct (match env "MOCKSERVER_PORT" with
            | Some s => if String.eqb s "" then Js.Num DEFAULT_PORT else Js.parseInt (Some s)
            | None => Js.Num DEFAULT_PORT
            end) as [p |]; cbn [fst cfg_port cfg_host].
  - destruct (Z.ltb_spec p 1) as [Hlo | Hlo]; rewrite Z.gtb_ltb;
      destruct (Z.ltb_spec 65535 p) as [Hhi | Hhi];
      cbn [orb fst cfg_port cfg_host]; unfold DEFAULT_PORT;
      (split; [lia | exact Hhost]).
  - unfold DEFAULT_PORT. split; [lia | exact Hhost].
Qed.

(** A port from 1 to 65535 written in decimal is taken as it is, also when
    text that does not start with a digit follows it, and nothing is
    reported. *)
Theorem getConfig_accepts_port :
  forall env p junk,
    1 <= p <= 65535 ->
    Js.starts_with_digit junk = false ->
    env "MOCKSERVER_PORT" = Some (Js.Number_toString p ++ junk) ->
    cfg_port (fst (getConfig env)) = p /\ snd (getConfig env) = [].
Proof.
  intros env p junk Hp Hjunk Henv. unfold getConfig. rewrite Henv.
  rewrite Number_toString_nonempty, parseInt_decimal by exact Hjunk.
  assert (Hin : (p <? 1) || (p >? 65535) = false).
  { apply orb_false_iff. split; [apply Z.ltb_ge; lia |].
    rewrite Z.gtb_ltb. apply Z.ltb_ge. lia. }
  rewrite Hin. split; reflexivity.
Qed.

(** A number outside 1 to 65535, and a text that starts with a character
    that is neither white space, a sign nor a digit, are replaced by 1080,
    and one line naming the text is reported. *)
Theorem getConfig_rejects_port :
  forall env s,
    env "MOCKSERVER_PORT" = Some s ->
    ((exists p junk,
         s = Js.Number_toString p ++ junk
         /\ Js.starts_with_digit junk = false
         /\ (p < 1 \/ 65535 < p))
     \/ (exists c rest,
            s = String c rest
            /\ (nat_of_ascii c < 128)%nat
            /\ Js.is_space c = false
            /\ Js.is_digit c = false
            /\ c <> "-"%char /\ c <> "+"%char)) ->
    cfg_port (fst (getConfig env)) = 1080
    /\ snd (getConfig env)
       = ["Invalid MOCKSERVER_PORT: " ++ s ++ ". Using default: 1080"].
Proof.
  intros env s Henv Hbad. unfold getConfig. rewrite Henv. cbn [show_optional].
  destruct Hbad as [(p & junk & -> & Hjunk & Hout) | (c & rest & -> & _ & Hsp & Hdig & Hm & Hp)].
  - rewrite Number_toString_nonempty, parseInt_decimal by exact Hjunk.
    assert (Hin : (p <? 1) || (p >? 65535) = true).
    { apply orb_true_iff. destruct Hout; [left; apply Z.ltb_lt; lia |].
      right. rewrite Z.gtb_ltb. apply Z.ltb_lt. lia. }
    rewrite Hin. split; reflexivity.
  - assert (Hnan : Js.parseInt (Some (String c rest)) = Js.NaN).
    { unfold Js.parseInt. cbn [Js.trim_start]. rewrite Hsp.
      destruct c as [[] [] [] [] [] [] [] []];
        try (exfalso; apply Hm; reflexivity);
        try (exfalso; apply Hp; reflexivity);
        cbn [Js.starts_with_digit]; rewrite Hdig; reflexivity. }
    cbn [String.eqb]. rewrite Hnan. split; reflexivity.
Qed.

(** A report is only ever made about a port variable that is set and not
    empty, it is a single line, and the port is then 1080. *)
Theorem getConfig_report :
  forall env,
    snd (getConfig env) <> [] ->
    (exists s, env "MOCKSERVER_PORT" = Some s /\ s <> EmptyString
               /\ snd (getConfig env)
                  = ["Invalid MOCKSERVER_PORT: " ++ s ++ ". Using default: 1080"])
    /\ cfg_port (fst (getConfig env)) = 1080.
Proof.
  intros env. unfold getConfig.
  destruct (env "MOCKSERVER_PORT") as [s |]; [| intros H; contradiction H; reflexivity].
  destruct (String.eqb_spec s "") as [-> | Hne]; [intros H; contradiction H; reflexivity |].
  destruct (Js.parseInt (Some s)) as [p |].
  - destruct ((p <? 1) || (p >? 65535)); [| intros H; contradiction H; reflexivity].
    intros _. split; [exists s; repeat split; assumption | reflexivity].
  - intros _. split; [exists s; repeat split; assumption | reflexivity].
Qed.


(* ================================================================= *)
(** ** The tools and the server *)

Section ToolFacts.

Variable net : Network.
Variable JSON_parse : string -> option JsValue.
Variable JSON_stringify : JsValue -> string.
Variable CreateExpectationInputSchema : option JsValue -> SafeParse Expectation.
Variable VerifyInputSchema : option JsValue -> SafeParse VerifyInput.
Variable ClearInputSchema : option JsValue -> SafeParse MatcherInput.
Variable RetrieveRequestsInputSchema : option JsValue -> SafeParse MatcherInput.

Local Notation "'request_'" := (request net JSON_parse JSON_stringify).
Local Notation "'call_'" := (request_call JSON_stringify).
Local Notation "'handleStatus_'" := (handleStatus net JSON_parse JSON_stringify).
Local Notation "'handleReset_'" := (handleReset net JSON_parse JSON_stringify).
Local Notation "'handleClear_'" := (handleClear net JSON_parse JSON_stringify ClearInputSchema).
Local Notation "'handleVerify_'" := (handleVerify net JSON_parse JSON_stringify VerifyInputSchema).
Local Notation "'handleCreateExpectation_'" :=
  (handleCreateExpectation net JSON_parse JSON_stringify CreateExpectationInputSchema).
Local Notation "'handleRetrieveRequests_'" :=
  (handleRetrieveRequests net JSON_parse JSON_stringify RetrieveRequestsInputSchema).
Local Notation "'getToolHandler_'" :=
  (getToolHandler net JSON_parse JSON_stringify CreateExpectationInputSchema
     VerifyInputSchema ClearInputSchema RetrieveRequestsInputSchema).
Local Notation "'callTool_'" :=
  (callTool net JSON_parse JSON_stringify CreateExpectationInputSchema
     VerifyInputSchema ClearInputSchema RetrieveRequestsInputSchema).

Ltac split_cases :=
  repeat match goal with
         | |- context [match ?x with _ => _ end] => destruct x eqn:?
         end.

(** A handler that resolves, resolves to one text item without a flag. *)
Lemma handlers_resolve_to_text client input log r log' :
  (handleStatus_ client input log = (Resolved r, log')
   \/ handleReset_ client input log = (Resolved r, log')
   \/ handleClear_ client input log = (Resolved r, log')
   \/ handleVerify_ client input log = (Resolved r, log')
   \/ handleCreateExpectation_ client input log = (Resolved r, log')
   \/ handleRetrieveRequests_ client input log = (Resolved r, log')) ->
  exists t, r = text_result t.
Proof.
  intros [H | [H | [H | [H | [H | H]]]]]; revert H.
  - unfold handleStatus, bind, ret, lift. split_cases; intros [= <- _]; eauto.
  - unfold handleReset, bind, ret. split_cases; intros [= <- _]; eauto.
  - unfold handleClear, bind, ret, throw.
    destruct (ClearInputSchema input); [| discriminate].
    destruct (clear _ _ _ _ _ _) as [[[] | e] l]; [| discriminate].
    destruct (mi_httpRequest data); intros [= <- _]; eauto.
  - unfold handleVerify, bind, ret, throw.
    destruct (VerifyInputSchema input); [| discriminate].
    destruct (verify _ _ _ _ _ _ _) as [[vr | e] l]; [| discriminate].
    destruct (success vr); intros [= <- _]; eauto.
  - unfold handleCreateExpectation, bind, ret, throw.
    destruct (CreateExpectationInputSchema input); [| discriminate].
    destruct (createExpectation _ _ _ _ _ _) as [[[] | e] l]; [| discriminate].
    intros [= <- _]; eauto.
  - unfold handleRetrieveRequests, bind, ret, throw, lift.
    destruct (RetrieveRequestsInputSchema input); [| discriminate].
    destruct (retrieveRecordedRequests _ _ _ _ _ _) as [[requests | e] l]; [| discriminate].
    destruct requests as [| x more]; [intros [= <- _]; eauto |].
    destruct (map_indexed _ _ _); [intros [= <- _]; eauto | discriminate].
Qed.

Lemma getToolHandler_cases name :
  getToolHandler_ name
  = if String.eqb "mockserver_create_expectation" name then Some handleCreateExpectation_
    else if String.eqb "mockserver_verify" name then Some handleVerify_
    else if String.eqb "mockserver_clear" name then Some handleClear_
    else if String.eqb "mockserver_reset" name then Some handleReset_
    else if String.eqb "mockserver_retrieve_requests" name then Some handleRetrieveRequests_
    else if String.eqb "mockserver_status" name then Some handleStatus_
    else None.
Proof.
  unfold getToolHandler, tools.
  cbn [find definition handler td_name createExpectationTool verifyTool clearTool
         resetTool retrieveRequestsTool statusTool].
  repeat (match goal with
          | |- context [String.eqb ?a name] => destruct (String.eqb a name)
          end; [reflexivity |]).
  reflexivity.
Qed.

(** A tool call never fails: whatever the tool, its arguments and the
    remote side do, the server resolves to a result of exactly one text
    item. *)
Theorem callTool_always_resolves :
  forall client params log,
    exists t flag,
      fst (callTool net JSON_parse JSON_stringify CreateExpectationInputSchema
           VerifyInputSchema ClearInputSchema RetrieveRequestsInputSchema client params log)
      = Resolved {| content := [{| content_type := "text"; content_text := t |}];
                    isError := flag |}.
Proof.
  intros client [name args] log. unfold callTool. cbn [params_name params_arguments].
  rewrite getToolHandler_cases.
  assert (Hrun : forall h : ToolHandler,
             (forall r log', h client args log = (Resolved r, log') ->
                             exists t, r = text_result t) ->
             exists t flag,
               fst (try_catch (h client args)
                      (fun error =>
                         ret (error_result
                                ("Error executing " ++ name ++ ": " ++ errorMessage error)))
                      log)
               = Resolved {| content := [{| content_type := "text"; content_text := t |}];
                             isError := flag |}).
  { intros h Hh. unfold try_catch, ret.
    destruct (h client args log) as [[r | e] l] eqn:Hrun.
    - destruct (Hh r l eq_refl) as [t ->]. eexists. eexists. reflexivity.
    - eexists. eexists. reflexivity. }
  repeat (match goal with
          | |- context [String.eqb ?a name] => destruct (String.eqb a name)
          end;
          [apply Hrun; intros r log' Hr;
           apply (handlers_resolve_to_text client args log r log'); tauto |]).
  eexists. eexists. reflexivity.
Qed.

(** The registry knows exactly six names; a call of any other name is
    answered with a flagged "Unknown tool" text, and the remote side is not
    contacted. *)
Theorem callTool_unknown_tool :
  forall client name args log,
    (getToolHandler_ name = None
     <-> ~ In name ["mockserver_create_expectation"; "mockserver_verify";
                    "mockserver_clear"; "mockserver_reset";
                    "mockserver_retrieve_requests"; "mockserver_status"])
    /\ (getToolHandler_ name = None ->
        callTool_ client {| params_name := name; params_arguments := args |} log
        = (Resolved (error_result ("Unknown tool: " ++ name)), log)).
Proof.
  intros client name args log. split.
  - rewrite getToolHandler_cases. cbn [In].
    repeat (match goal with
            | |- context [String.eqb ?a name] => destruct (String.eqb_spec a name)
            end; [split; [discriminate | intros H; exfalso; apply H; tauto] |]).
    split; [intros _; intuition congruence | reflexivity].
  - intros Hnone. unfold callTool. cbn [params_name params_arguments].
    rewrite Hnone. reflexivity.
Qed.

End ToolFacts.

Section ToolReports.

Variable net : Network.
Variable JSON_parse : string -> option JsValue.
Variable JSON_stringify : JsValue -> string.
Variable CreateExpectationInputSchema : option JsValue -> SafeParse Expectation.
Variable VerifyInputSchema : option JsValue -> SafeParse VerifyInput.
Variable ClearInputSchema : option JsValue -> SafeParse MatcherInput.
Variable RetrieveRequestsInputSchema : option JsValue -> SafeParse MatcherInput.

Local Notation "'request_'" := (request net JSON_parse JSON_stringify).
Local Notation "'call_'" := (request_call JSON_stringify).
Local Notation "'handleClear_'" := (handleClear net JSON_parse JSON_stringify ClearInputSchema).
Local Notation "'handleVerify_'" := (handleVerify net JSON_parse JSON_stringify VerifyInputSchema).
Local Notation "'handleCreateExpectation_'" :=
  (handleCreateExpectation net JSON_parse JSON_stringify CreateExpectationInputSchema).
Local Notation "'handleRetrieveRequests_'" :=
  (handleRetrieveRequests net JSON_parse JSON_stringify RetrieveRequestsInputSchema).
Local Notation "'callTool_'" :=
  (callTool net JSON_parse JSON_stringify CreateExpectationInputSchema
     VerifyInputSchema ClearInputSchema RetrieveRequestsInputSchema).
Local Notation "'tool' name args" :=
  {| params_name := name; params_arguments := args |}
  (at level 10, name at level 9, args at level 9).

Ltac dispatch :=
  unfold callTool; cbn [params_name params_arguments];
  rewrite getToolHandler_cases;
  cbv [String.eqb Ascii.eqb Bool.eqb]; cbv beta iota.

(** Arguments the schema refuses never reach the remote side: the handler
    throws INVALID_PARAMETERS with the validation message and issues, before
    any call, and the server answers with a flagged text. *)
Theorem invalid_arguments_stop_before_the_call :
  forall client args log msg errors,
    (CreateExpectationInputSchema args = ParseFailure msg errors ->
       handleCreateExpectation_ client args log
       = (Rejected (ThrowTool (mkToolError INVALID_PARAMETERS ("Invalid parameters: " ++ msg)
                                 (Some [("errors", errors)]))), log)
       /\ callTool_ client (tool "mockserver_create_expectation" args) log
          = (Resolved (error_result
               ("Error executing mockserver_create_expectation: Invalid parameters: " ++ msg)),
             log))
    /\ (VerifyInputSchema args = ParseFailure msg errors ->
        handleVerify_ client args log
        = (Rejected (ThrowTool (mkToolError INVALID_PARAMETERS ("Invalid parameters: " ++ msg)
                                  (Some [("errors", errors)]))), log)
        /\ callTool_ client (tool "mockserver_verify" args) log
           = (Resolved (error_result
                ("Error executing mockserver_verify: Invalid parameters: " ++ msg)), log))
    /\ (ClearInputSchema args = ParseFailure msg errors ->
        handleClear_ client args log
        = (Rejected (ThrowTool (mkToolError INVALID_PARAMETERS ("Invalid parameters: " ++ msg)
                                  (Some [("errors", errors)]))), log)
        /\ callTool_ client (tool "mockserver_clear" args) log
           = (Resolved (error_result
                ("Error executing mockserver_clear: Invalid parameters: " ++ msg)), log))
    /\ (RetrieveRequestsInputSchema args = ParseFailure msg errors ->
        handleRetrieveRequests_ client args log
        = (Rejected (ThrowTool (mkToolError INVALID_PARAMETERS ("Invalid parameters: " ++ msg)
                                  (Some [("errors", errors)]))), log)
        /\ callTool_ client (tool "mockserver_retrieve_requests" args) log
           = (Resolved (error_result
                ("Error executing mockserver_retrieve_requests: Invalid parameters: " ++ msg)),
              log)).
Proof.
  intros client args log msg errors.
  split; [| split; [| split]]; intros Hparse;
    (split; [| dispatch; unfold try_catch]);
    unfold handleCreateExpectation, handleVerify, handleClear, handleRetrieveRequests;
    rewrite Hparse; reflexivity.
Qed.



End ToolReports.

Lemma map_indexed_rejects {A B : Type} (f : A -> nat -> Completion B) (x : A) (l : list A) :
  In x l ->
  (forall i, exists e, f x i = Rejected e) ->
  forall i, exists e, map_indexed f i l = Rejected e.
Proof.
  intros Hin Hx. induction l as [| y l IH]; [contradiction |]. intros i.
  cbn [map_indexed]. destruct Hin as [-> | Hin].
  - destruct (Hx i) as [e ->]. cbn [cbind]. eauto.
  - destruct (f y i); cbn [cbind]; [| eauto].
    destruct (IH Hin (S i)) as [e ->]. cbn [cbind]. eauto.
Qed.

(** A record with a method and a path and nothing else. *)
Lemma request_summary_plain m p i :
  request_summary (JObj [("method", JStr m); ("path", JStr p)]) i
  = Resolved (Js.Number_toString (Z.of_nat i + 1) ++ ". " ++ m ++ " " ++ p).
Proof. reflexivity. Qed.

Lemma map_indexed_plain (reqs : list (string * string)) : forall i,
  map_indexed request_summary i
    (map (fun mp => JObj [("method", JStr (fst mp)); ("path", JStr (snd mp))]) reqs)
  = Resolved
      (map (fun imp => Js.Number_toString (Z.of_nat (fst imp) + 1) ++ ". "
                         ++ fst (snd imp) ++ " " ++ snd (snd imp))
         (combine (seq i (List.length reqs)) reqs)).
Proof.
  induction reqs as [| [m p] reqs IH]; intros i; [reflexivity |].
  cbn [map map_indexed List.length seq combine fst snd].
  rewrite request_summary_plain. cbn [cbind]. rewrite IH. reflexivity.
Qed.

Section ToolAnswers.

Variable net : Network.
Variable JSON_parse : string -> option JsValue.
Variable JSON_stringify : JsValue -> string.
Variable CreateExpectationInputSchema : option JsValue -> SafeParse Expectation.
Variable VerifyInputSchema : option JsValue -> SafeParse VerifyInput.
Variable ClearInputSchema : option JsValue -> SafeParse MatcherInput.
Variable RetrieveRequestsInputSchema : option JsValue -> SafeParse MatcherInput.

Local Notation "'request_'" := (request net JSON_parse JSON_stringify).
Local Notation "'call_'" := (request_call JSON_stringify).
Local Notation "'callTool_'" :=
  (callTool net JSON_parse JSON_stringify CreateExpectationInputSchema
     VerifyInputSchema ClearInputSchema RetrieveRequestsInputSchema).
Local Notation "'tool' name args" :=
  {| params_name := name; params_arguments := args |}
  (at level 10, name at level 9, args at level 9).

Ltac dispatch :=
  unfold callTool; cbn [params_name params_arguments];
  rewrite getToolHandler_cases;
  cbv [String.eqb Ascii.eqb Bool.eqb]; cbv beta iota.


(** The retrieve tool says "No recorded requests found" not only for an
    empty array but for every answer that is not an array, and names the
    method and path of the matcher it was given. *)
Theorem retrieve_tool_nothing_found :
  forall client args log rin v log',
    RetrieveRequestsInputSchema args = ParseSuccess rin ->
    request_ client "/mockserver/retrieve" "PUT" (matcher_body (mi_httpRequest rin))
      (Some [("type", "REQUESTS")]) log = (Resolved v, log') ->
    as_array v = None \/ as_array v = Some [] ->
    callTool_ client (tool "mockserver_retrieve_requests" args) log
    = (Resolved (text_result
         ("No recorded requests found"
            ++ match mi_httpRequest rin with
               | Some m =>
                   " matching criteria (" ++ nullish (rm_method m) "ANY" ++ " "
                     ++ nullish (rm_path m) "/*" ++ ")"
               | None => EmptyString
               end ++ ".")), log').
Proof.
  intros client args log rin v log' Hrin Hreq Hv.
  dispatch. unfold try_catch, handleRetrieveRequests. rewrite Hrin.
  unfold retrieveRecordedRequests, bind. rewrite Hreq.
  destruct Hv as [-> | ->]; reflexivity.
Qed.

(** One [null] among the recorded requests makes the whole listing fail:
    the tool answers with a flagged error text and lists nothing. *)
Theorem retrieve_tool_null_record :
  forall client args log rin items log',
    RetrieveRequestsInputSchema args = ParseSuccess rin ->
    request_ client "/mockserver/retrieve" "PUT" (matcher_body (mi_httpRequest rin))
      (Some [("type", "REQUESTS")]) log = (Resolved (JArr items), log') ->
    In JNull items ->
    exists msg,
      callTool_ client (tool "mockserver_retrieve_requests" args) log
      = (Resolved (error_result
           ("Error executing mockserver_retrieve_requests: " ++ msg)), log').
Proof.
  intros client args log rin items log' Hrin Hreq Hin.
  dispatch. unfold try_catch, handleRetrieveRequests. rewrite Hrin.
  unfold retrieveRecordedRequests, bind. rewrite Hreq. cbn [as_array]. unfold ret.
  destruct items as [| x more]; [contradiction |].
  destruct (map_indexed_rejects request_summary JNull (x :: more) Hin) with (i := 0%nat)
    as [e He].
  { intros i. eexists. reflexivity. }
  unfold lift. rewrite He. eexists. reflexivity.
Qed.

(** Recorded requests that have a method and a path and nothing else are
    listed one per block, numbered from 1, under a heading that counts
    them. *)
Theorem retrieve_tool_lists_requests :
  forall client args log rin (reqs : list (string * string)) log',
    RetrieveRequestsInputSchema args = ParseSuccess rin ->
    reqs <> [] ->
    request_ client "/mockserver/retrieve" "PUT" (matcher_body (mi_httpRequest rin))
      (Some [("type", "REQUESTS")]) log
    = (Resolved (JArr (map (fun mp => JObj [("method", JStr (fst mp)); ("path", JStr (snd mp))])
                         reqs)), log') ->
    callTool_ client (tool "mockserver_retrieve_requests" args) log
    = (Resolved (text_result
         ("Retrieved " ++ Js.Number_toString (Z.of_nat (List.length reqs))
            ++ " recorded request(s):" ++ nl ++ nl
            ++ join (nl ++ nl)
                 (map (fun imp => Js.Number_toString (Z.of_nat (fst imp) + 1) ++ ". "
                                    ++ fst (snd imp) ++ " " ++ snd (snd imp))
                    (combine (seq 0 (List.length reqs)) reqs)))), log').
Proof.
  intros client args log rin reqs log' Hrin Hne Hreq.
  dispatch. unfold try_catch, handleRetrieveRequests. rewrite Hrin.
  unfold retrieveRecordedRequests, bind. rewrite Hreq. cbn [as_array]. unfold ret.
  destruct reqs as [| mp reqs]; [contradiction |].
  change (map (fun mp0 => JObj [("method", JStr (fst mp0)); ("path", JStr (snd mp0))])
            (mp :: reqs))
    with (JObj [("method", JStr (fst mp)); ("path", JStr (snd mp))]
            :: map (fun mp0 => JObj [("method", JStr (fst mp0)); ("path", JStr (snd mp0))])
                 reqs).
  cbv iota.
  change (JObj [("method", JStr (fst mp)); ("path", JStr (snd mp))]
            :: map (fun mp0 => JObj [("method", JStr (fst mp0)); ("path", JStr (snd mp0))])
                 reqs)
    with (map (fun mp0 => JObj [("method", JStr (fst mp0)); ("path", JStr (snd mp0))])
            (mp :: reqs)).
  unfold lift. rewrite map_indexed_plain. rewrite length_map. reflexivity.
Qed.

End ToolAnswers.

(* ================================================================= *)
(** ** Closed instances of the further facts *)

Lemma operations_reject_with_ToolError_witness :
  exists te,
    ThrowTool (mkToolError CONNECTION_FAILED
                 "Cannot connect to MockServer at http://localhost:1080"
                 (Some [("originalError", JStr "fetch failed: ECONNREFUSED")]))
    = ThrowTool te.
Proof.
  apply (operations_reject_with_ToolError refused sample_parse sample_stringify
           sample_client [] _
           [request_call sample_stringify sample_client "/mockserver/reset" "PUT"
              (JObj []) None]).
  right. right. right. left. reflexivity.
Defined.

Lemma verify_result_invariant_witness :
  matchedCount {| success := false; matchedCount := 0;
                  vr_message := Some "Verification failed: Request not matched" |} = 0
  /\ exists te,
       request (responding 406 "Request not matched") sample_parse sample_stringify
         sample_client "/mockserver/verify" "PUT" (verify_body path_test None) None []
       = (Rejected (ThrowTool te),
          [request_call sample_stringify sample_client "/mockserver/verify" "PUT"
             (verify_body path_test None) None])
       /\ code te = VERIFICATION_FAILED
       /\ Some "Verification failed: Request not matched" = Some (message te).
Proof.
  apply (verify_result_invariant (responding 406 "Request not matched") sample_parse
           sample_stringify sample_client path_test None []
           {| success := false; matchedCount := 0;
              vr_message := Some "Verification failed: Request not matched" |}
           [request_call sample_stringify sample_client "/mockserver/verify" "PUT"
              (verify_body path_test None) None]
           eq_refl).
  reflexivity.
Defined.

Lemma request_resolves_iff_success_status_witness :
  (exists v,
      fst (request (responding 299 "[]") sample_parse sample_stringify sample_client
             "/mockserver/reset" "PUT" (JObj []) None []) = Resolved v)
  /\ ~ (exists v,
           fst (request (responding 300 "[]") sample_parse sample_stringify sample_client
                  "/mockserver/reset" "PUT" (JObj []) None []) = Resolved v).
Proof.
  split.
  - apply (request_resolves_iff_success_status (responding 299 "[]") sample_parse
             sample_stringify sample_client "/mockserver/reset" "PUT" (JObj []) None []
             {| status := 299; body := TextOk "[]" |} eq_refl).
    cbn [status body]. split; [lia | eauto].
  - intros H.
    apply (request_resolves_iff_success_status (responding 300 "[]") sample_parse
             sample_stringify sample_client "/mockserver/reset" "PUT" (JObj []) None []
             {| status := 300; body := TextOk "[]" |} eq_refl) in H.
    cbn [status] in H. lia.
Defined.

Lemma unreadable_body_witness :
  (exists te,
      fst (request
             (answering (FetchResponds
                {| status := 200;
                   body := TextFails (ThrowError "AbortError" "This operation was aborted") |}))
             sample_parse sample_stringify sample_client
             "/mockserver/reset" "PUT" (JObj []) None [])
      = Rejected (ThrowTool te)
      /\ code te = CONNECTION_TIMEOUT)
  /\ (exists te,
         fst (request
                (answering (FetchResponds
                   {| status := 500;
                      body := TextFails (ThrowError "TypeError" "terminated") |}))
                sample_parse sample_stringify sample_client
                "/mockserver/reset" "PUT" (JObj []) None [])
         = Rejected (ThrowTool te)
         /\ code te = MOCKSERVER_ERROR
         /\ message te = "MockServer error: Unknown error"
         /\ details te = Some [("statusCode", JNum 500)]).
Proof.
  split.
  - destruct (unreadable_body
                (answering (FetchResponds
                   {| status := 200;
                      body := TextFails (ThrowError "AbortError" "This operation was aborted") |}))
                sample_parse sample_stringify sample_client
                "/mockserver/reset" "PUT" (JObj []) None [] 200
                (ThrowError "AbortError" "This operation was aborted") eq_refl)
      as [Hsuccess _].
    destruct Hsuccess as [_ Habort]; [lia |].
    apply (Habort "This operation was aborted"). reflexivity.
  - destruct (unreadable_body
                (answering (FetchResponds
                   {| status := 500;
                      body := TextFails (ThrowError "TypeError" "terminated") |}))
                sample_parse sample_stringify sample_client
                "/mockserver/reset" "PUT" (JObj []) None [] 500
                (ThrowError "TypeError" "terminated") eq_refl)
      as [_ Hfailure].
    apply Hfailure. lia.
Defined.

Lemma getStatus_on_transport_failure_witness :
  fst (getStatus aborted sample_parse sample_stringify sample_client [])
  = Resolved {| host := "localhost"; port := Js.Num 1080; reachable := false;
                version := None |}
  /\ fst (getStatus (rejecting "TypeError" "Invalid URL") sample_parse sample_stringify
            sample_client [])
     = Rejected (ThrowTool
         (mkToolError UNKNOWN_ERROR "Unexpected error: Invalid URL" None)).
Proof.
  split.
  - destruct (getStatus_on_transport_failure aborted sample_parse sample_stringify
                sample_client [] "AbortError" "AbortError" eq_refl) as [Hdown _].
    rewrite Hdown; [reflexivity | left; reflexivity].
  - destruct (getStatus_on_transport_failure (rejecting "TypeError" "Invalid URL")
                sample_parse sample_stringify sample_client [] "TypeError" "Invalid URL"
                eq_refl) as [_ Hraise].
    apply Hraise; [discriminate | reflexivity].
Defined.

Lemma status_host_is_host_before_colon_witness :
  fst (status_host_port ipv6_client) = "["
  /\ fst (status_host_port sample_client) = "localhost".
Proof.
  split.
  - destruct (status_host_is_host_before_colon "[::1]" 1080 None) as [Hhead _].
    exact Hhead.
  - destruct (status_host_is_host_before_colon "localhost" 1080 None) as [_ Hiff].
    apply Hiff. reflexivity.
Defined.

Lemma getStatus_reports_configuration_witness :
  host {| host := "localhost"; port := Js.Num 1080; reachable := false; version := None |}
  = "localhost"
  /\ port {| host := "localhost"; port := Js.Num 1080; reachable := false; version := None |}
     = Js.Num 1080.
Proof.
  apply (getStatus_reports_configuration refused sample_parse sample_stringify
           "localhost" 1080 None []
           {| host := "localhost"; port := Js.Num 1080; reachable := false; version := None |}
           [request_call sample_stringify sample_client "/mockserver/status" "PUT"
              (JObj []) None]).
  - reflexivity.
  - reflexivity.
  - reflexivity.
Defined.

Lemma getConfig_accepts_port_witness :
  cfg_port (fst (getConfig (env_with (Some "mock.example.org") (Some "8080/tcp")))) = 8080
  /\ snd (getConfig (env_with (Some "mock.example.org") (Some "8080/tcp"))) = [].
Proof.
  apply (getConfig_accepts_port (env_with (Some "mock.example.org") (Some "8080/tcp"))
           8080 "/tcp").
  - lia.
  - reflexivity.
  - reflexivity.
Defined.

Lemma getConfig_rejects_port_witness :
  (cfg_port (fst (getConfig (env_with None (Some "70000")))) = 1080
   /\ snd (getConfig (env_with None (Some "70000")))
      = ["Invalid MOCKSERVER_PORT: " ++ "70000" ++ ". Using default: 1080"])
  /\ (cfg_port (fst (getConfig (env_with None (Some "http")))) = 1080
      /\ snd (getConfig (env_with None (Some "http")))
         = ["Invalid MOCKSERVER_PORT: " ++ "http" ++ ". Using default: 1080"]).
Proof.
  split.
  - apply (getConfig_rejects_port (env_with None (Some "70000")) "70000" eq_refl).
    left. exists 70000, EmptyString. repeat split. right. lia.
  - apply (getConfig_rejects_port (env_with None (Some "http")) "http" eq_refl).
    right. exists "h"%char, "ttp". repeat split; try discriminate. cbn. lia.
Defined.

Lemma getConfig_report_witness :
  (exists s,
      env_with None (Some "0") "MOCKSERVER_PORT" = Some s /\ s <> EmptyString
      /\ snd (getConfig (env_with None (Some "0")))
         = ["Invalid MOCKSERVER_PORT: " ++ s ++ ". Using default: 1080"])
  /\ cfg_port (fst (getConfig (env_with None (Some "0")))) = 1080.
Proof.
  apply (getConfig_report (env_with None (Some "0"))). discriminate.
Defined.


Lemma callTool_unknown_tool_witness :
  callTool refused sample_parse sample_stringify
    (accepting sample_expectation)
    (accepting {| vi_httpRequest := path_test; vi_times := None |})
    (accepting {| mi_httpRequest := None |})
    (accepting {| mi_httpRequest := None |})
    sample_client {| params_name := "mockserver_restart"; params_arguments := None |} []
  = (Resolved (error_result ("Unknown tool: " ++ "mockserver_restart")), []).
Proof.
  apply (callTool_unknown_tool refused sample_parse sample_stringify
           (accepting sample_expectation)
           (accepting {| vi_httpRequest := path_test; vi_times := None |})
           (accepting {| mi_httpRequest := None |})
           (accepting {| mi_httpRequest := None |})
           sample_client "mockserver_restart" None []).
  reflexivity.
Defined.

Lemma invalid_arguments_stop_before_the_call_witness :
  callTool refused sample_parse sample_stringify
    (accepting sample_expectation)
    (refusing "Required")
    (accepting {| mi_httpRequest := None |})
    (accepting {| mi_httpRequest := None |})
    sample_client {| params_name := "mockserver_verify"; params_arguments := None |} []
  = (Resolved (error_result
       ("Error executing mockserver_verify: Invalid parameters: " ++ "Required")), []).
Proof.
  destruct (invalid_arguments_stop_before_the_call refused sample_parse sample_stringify
              (accepting sample_expectation)
              (refusing "Required")
              (accepting {| mi_httpRequest := None |})
              (accepting {| mi_httpRequest := None |})
              sample_client None [] "Required" (JArr []))
    as (_ & Hverify & _).
  apply Hverify. reflexivity.
Defined.




Lemma retrieve_tool_nothing_found_witness :
  callTool (responding 200 "OK") sample_parse sample_stringify
    (accepting sample_expectation)
    (accepting {| vi_httpRequest := path_test; vi_times := None |})
    (accepting {| mi_httpRequest := None |})
    (accepting {| mi_httpRequest := Some path_test |})
    sample_client
    {| params_name := "mockserver_retrieve_requests"; params_arguments := None |} []
  = (Resolved (text_result
       ("No recorded requests found"
          ++ (" matching criteria (" ++ "ANY" ++ " " ++ "/test" ++ ")") ++ ".")),
     [request_call sample_stringify sample_client "/mockserver/retrieve" "PUT"
        (matcher_body (Some path_test)) (Some [("type", "REQUESTS")])]).
Proof.
  apply (retrieve_tool_nothing_found (responding 200 "OK") sample_parse sample_stringify
           (accepting sample_expectation)
           (accepting {| vi_httpRequest := path_test; vi_times := None |})
           (accepting {| mi_httpRequest := None |})
           (accepting {| mi_httpRequest := Some path_test |})
           sample_client None [] {| mi_httpRequest := Some path_test |} (JStr "OK")).
  - reflexivity.
  - reflexivity.
  - left. reflexivity.
Defined.

Lemma retrieve_tool_null_record_witness :
  exists msg,
    callTool (responding 200 "[null]")
      (fun t => if String.eqb t "[null]" then Some (JArr [JNull]) else None)
      sample_stringify
      (accepting sample_expectation)
      (accepting {| vi_httpRequest := path_test; vi_times := None |})
      (accepting {| mi_httpRequest := None |})
      (accepting {| mi_httpRequest := None |})
      sample_client
      {| params_name := "mockserver_retrieve_requests"; params_arguments := None |} []
    = (Resolved (error_result
         ("Error executing mockserver_retrieve_requests: " ++ msg)),
       [request_call sample_stringify sample_client "/mockserver/retrieve" "PUT"
          (matcher_body None) (Some [("type", "REQUESTS")])]).
Proof.
  apply (retrieve_tool_null_record (responding 200 "[null]")
           (fun t => if String.eqb t "[null]" then Some (JArr [JNull]) else None)
           sample_stringify
           (accepting sample_expectation)
           (accepting {| vi_httpRequest := path_test; vi_times := None |})
           (accepting {| mi_httpRequest := None |})
           (accepting {| mi_httpRequest := None |})
           sample_client None [] {| mi_httpRequest := None |} [JNull]).
  - reflexivity.
  - reflexivity.
  - left. reflexivity.
Defined.

Lemma retrieve_tool_lists_requests_witness :
  callTool (responding 200 (sample_stringify (JArr sample_recorded)))
    sample_parse sample_stringify
    (accepting sample_expectation)
    (accepting {| vi_httpRequest := path_test; vi_times := None |})
    (accepting {| mi_httpRequest := None |})
    (accepting {| mi_httpRequest := None |})
    sample_client
    {| params_name := "mockserver_retrieve_requests"; params_arguments := None |} []
  = (Resolved (text_result
       ("Retrieved 2 recorded request(s):" ++ nl ++ nl
          ++ "1. GET /test1" ++ nl ++ nl ++ "2. POST /test2")),
     [request_call sample_stringify sample_client "/mockserver/retrieve" "PUT"
        (matcher_body None) (Some [("type", "REQUESTS")])]).
Proof.
  apply (retrieve_tool_lists_requests
           (responding 200 (sample_stringify (JArr sample_recorded)))
           sample_parse sample_stringify
           (accepting sample_expectation)
           (accepting {| vi_httpRequest := path_test; vi_times := None |})
           (accepting {| mi_httpRequest := None |})
           (accepting {| mi_httpRequest := None |})
           sample_client None [] {| mi_httpRequest := None |}
           [("GET", "/test1"); ("POST", "/test2")]).
  - reflexivity.
  - discriminate.
  - reflexivity.
Defined.

(* ================================================================= *)
(** ** Query string parameters in a summary, and the connected status *)

Lemma ToString_cons x more :
  ToString (JArr (x :: more))
  = match match x with
          | JNull => Resolved EmptyString
          | _ => ToString x
          end with
    | Rejected e => Rejected e
    | Resolved s =>
        match more with
        | [] => Resolved s
        | _ => match ToString (JArr more) with
               | Rejected e => Rejected e
               | Resolved r => Resolved (s ++ "," ++ r)
               end
        end
    end.
Proof. reflexivity. Qed.

(** An array of strings converts to the strings joined with commas. *)
Lemma ToString_strings (vs : list string) :
  ToString (JArr (map JStr vs)) = Resolved (join "," vs).
Proof.
  induction vs as [| v vs IH]; [reflexivity |].
  cbn [map]. rewrite ToString_cons.
  change (ToString (JStr v)) with (Resolved (A := string) v). cbv iota.
  destruct vs as [| w vs]; [reflexivity |].
  rewrite IH. reflexivity.
Qed.

Lemma query_entries (q : MultiMap) :
  map_throwing query_entry (map (fun kv => (fst kv, JArr (map JStr (snd kv)))) q)
  = Resolved (map (fun kv => fst kv ++ "=" ++ join "," (snd kv)) q).
Proof.
  induction q as [| [k vs] q IH]; [reflexivity |].
  cbn [map map_throwing fst snd]. unfold query_entry at 1. cbn [fst snd].
  rewrite ToString_strings. cbn [cbind]. rewrite IH. reflexivity.
Qed.

Lemma append_not_empty a c b : String.eqb (a ++ String c b) "" = false.
Proof. destruct a; reflexivity. Qed.

Lemma join_entries_not_empty k vs (es : list string) :
  String.eqb (join "&" ((k ++ "=" ++ join "," vs) :: es)) "" = false.
Proof.
  cbn [join]. change ("=" ++ join "," vs) with (String "=" (join "," vs)).
  destruct es as [| e es].
  - apply append_not_empty.
  - rewrite append_assoc. cbn [append]. apply append_not_empty.
Qed.

Lemma own_properties_plain (props : list (string * JsValue)) :
  (forall kv, In kv props -> array_index (fst kv) = None) ->
  own_properties props = props.
Proof.
  intros Hplain. unfold own_properties.
  assert (Hindex : index_properties props = []).
  { induction props as [| kv props IH]; [reflexivity |].
    cbn [index_properties]. rewrite (Hplain kv (or_introl eq_refl)).
    apply IH. intros kv' Hin. apply Hplain. right. exact Hin. }
  rewrite Hindex. cbn [map app]. clear Hindex.
  induction props as [| kv props IH]; [reflexivity |].
  cbn [filter]. rewrite (Hplain kv (or_introl eq_refl)). f_equal.
  apply IH. intros kv' Hin. apply Hplain. right. exact Hin.
Qed.

(** A recorded request with query string parameters, as the client itself
    writes such a map, is summarized with one more line: the parameters as
    [name=v1,v2] joined with [&], in the order of the map when no name is an
    array index; for an empty map the line is left out. *)
Theorem request_summary_query :
  forall m p (q : MultiMap) i,
    (forall kv, In kv q -> array_index (fst kv) = None) ->
    request_summary
      (JObj [("method", JStr m); ("path", JStr p);
             ("queryStringParameters", MultiMap_js q)]) i
    = Resolved
        (join nl
           ((Js.Number_toString (Z.of_nat i + 1) ++ ". " ++ m ++ " " ++ p)
              :: match q with
                 | [] => []
                 | _ => ["   Query: "
                           ++ join "&" (map (fun kv => fst kv ++ "=" ++ join "," (snd kv)) q)]
                 end)).
Proof.
  intros m p q i Hplain. unfold request_summary.
  cbn [read_prop get_prop String.eqb Ascii.eqb Bool.eqb cbind nullish_value ToString truthy
         Object_entries MultiMap_js].
  rewrite own_properties_plain.
  2:{ intros kv Hin. apply in_map_iff in Hin. destruct Hin as (kv' & <- & Hin).
      apply Hplain. exact Hin. }
  rewrite query_entries. cbn [cbind].
  destruct q as [| [k vs] q]; [reflexivity |].
  cbn [map fst snd]. rewrite join_entries_not_empty. reflexivity.
Qed.

Section StatusTool.

Variable net : Network.
Variable JSON_parse : string -> option JsValue.
Variable JSON_stringify : JsValue -> string.
Variable CreateExpectationInputSchema : option JsValue -> SafeParse Expectation.
Variable VerifyInputSchema : option JsValue -> SafeParse VerifyInput.
Variable ClearInputSchema : option JsValue -> SafeParse MatcherInput.
Variable RetrieveRequestsInputSchema : option JsValue -> SafeParse MatcherInput.

Local Notation "'call_'" := (request_call JSON_stringify).
Local Notation "'callTool_'" :=
  (callTool net JSON_parse JSON_stringify CreateExpectationInputSchema
     VerifyInputSchema ClearInputSchema RetrieveRequestsInputSchema).


End StatusTool.


Lemma request_summary_query_witness :
  request_summary
    (JObj [("method", JStr "GET"); ("path", JStr "/api/users");
           ("queryStringParameters",
            MultiMap_js [("page", ["1"]); ("sort", ["name"; "asc"])])]) 0
  = Resolved ("1. GET /api/users" ++ nl ++ "   Query: page=1&sort=name,asc").
Proof.
  rewrite (request_summary_query "GET" "/api/users"
             [("page", ["1"]); ("sort", ["name"; "asc"])] 0).
  - reflexivity.
  - intros kv [<- | [<- | []]]; reflexivity.
Defined.
